(** * Strategy telemetry and performance analytics: the analytics engine

    A shallow embedding of the metrics calculator
    ([lib/metrics/calculator.ts]), the what-if simulator
    ([lib/whatif/simulator.ts]) and the anomaly detector
    ([lib/anomaly/detector.ts]), with the properties the specification
    states about them.

    JavaScript numbers are reached through the interface [JSNumber].  Its
    instance [Binary64] is IEEE 754 double precision, the arithmetic the
    program runs on; its instance [Exact] is exact rational arithmetic.
    Every function is written once, over the interface.  Properties that hold
    whatever the arithmetic are proved for every instance; properties of
    sums, quotients and orderings are proved in exact arithmetic, and
    evaluated in double precision where rounding decides them. *)

From Stdlib Require Import ZArith QArith Qcanon Qround String List Bool Lia.
From Stdlib Require Import Permutation Sorted.
From Stdlib Require Floats.
Import ListNotations.
Open Scope Z_scope.
Open Scope nat_scope.
Open Scope list_scope.

Set Implicit Arguments.

(** ** JavaScript numbers *)

(** The result of the abstract operation ToIntegerOrInfinity. *)
Inductive Integer : Type :=
| NegInf
| Fin (z : Z)
| PosInf.

Class JSNumber (num : Type) : Type := {
  num_of_Z : Z -> num;                  (* an integer literal, an array length *)
  num_add : num -> num -> num;
  num_sub : num -> num -> num;
  num_mul : num -> num -> num;
  num_div : num -> num -> num;
  num_opp : num -> num;
  num_lt : num -> num -> bool;          (* a < b *)
  num_eq : num -> num -> bool;          (* a === b *)
  Math_sqrt : num -> num;
  Math_floor : num -> num;
  ToIntegerOrInfinity : num -> Integer
}.

Declare Scope js_scope.
Delimit Scope js_scope with js.
Infix "+" := num_add : js_scope.
Infix "-" := num_sub : js_scope.
Infix "*" := num_mul : js_scope.
Infix "/" := num_div : js_scope.
Notation "- x" := (num_opp x) : js_scope.
Infix "<?" := num_lt : js_scope.
Infix "===" := num_eq (at level 70, no associativity) : js_scope.

Section Numbers.
Context {num : Type} {N : JSNumber num}.
Local Open Scope js_scope.

Definition num_of_nat (n : nat) : num := num_of_Z (Z.of_nat n).

(** A decimal literal [a/b], such as 0.95 = 95/100.  In double precision
    the quotient of two integers is rounded to the nearest double, which is
    the double the literal denotes. *)
Definition decimal (a b : Z) : num := num_of_Z a / num_of_Z b.

Definition num_gt (a b : num) : bool := b <? a.
Definition num_le (a b : num) : bool := (a <? b) || (a === b).
Definition num_ge (a b : num) : bool := num_le b a.

(** [x] is not a number: the only value different from itself. *)
Definition isNaN (x : num) : bool := negb (x === x).

(** Truthiness of a number: [0], [-0] and [NaN] are falsy. *)
Definition truthy (x : num) : bool := negb (x === num_of_Z 0) && negb (isNaN x).

(** [x || d] on numbers. *)
Definition or_else (x d : num) : num := if truthy x then x else d.

Definition Math_abs (x : num) : num := if x <? num_of_Z 0 then - x else x.

Definition Math_max (a b : num) : num :=
  if isNaN a then a else if isNaN b then b else if a <? b then b else a.

Definition Math_min (a b : num) : num :=
  if isNaN a then a else if isNaN b then b else if b <? a then b else a.

(** [Math.ceil(x)] is [-Math.floor(-x)]. *)
Definition Math_ceil (x : num) : num := - Math_floor (- x).

(** [Math.pow(x, 2)]. *)
Definition Math_pow2 (x : num) : num := x * x.

(** [xs.reduce((sum, v) => sum + v, 0)]. *)
Definition sum (xs : list num) : num := fold_left num_add xs (num_of_Z 0).

(** The integer a number denotes, when it denotes one. *)
Definition to_Z (x : num) : option Z :=
  match ToIntegerOrInfinity x with
  | Fin z => if num_of_Z z === x then Some z else None
  | _ => None
  end.
End Numbers.

Infix ">?" := num_gt (at level 70, no associativity) : js_scope.
Infix "<=?" := num_le : js_scope.
Infix ">=?" := num_ge (at level 70, no associativity) : js_scope.

(** *** Double precision

    The primitive floating-point numbers are IEEE 754 binary64 with rounding
    to nearest, ties to even: the arithmetic of a JavaScript number. *)

Module Double.
Import Floats.

(** The double nearest to an integer. *)
Definition of_Z (z : Z) : float :=
  SF2Prim (binary_normalize prec emax z 0 false).

(** [Math.floor]: a double with a negative exponent is [m * 2^e] for an
    integer [m]; every other double is an integer, an infinity or [NaN]. *)
Definition floor (x : float) : float :=
  match Prim2SF x with
  | S754_finite s m e =>
      if (0 <=? e)%Z then x
      else of_Z ((if s then Z.neg m else Z.pos m) / 2 ^ (- e))%Z
  | _ => x
  end.

(** ToIntegerOrInfinity: [NaN] and the zeros give 0, a finite number is
    truncated towards zero. *)
Definition toIntegerOrInfinity (x : float) : Integer :=
  match Prim2SF x with
  | S754_zero _ | S754_nan => Fin 0
  | S754_infinity s => if s then NegInf else PosInf
  | S754_finite s m e =>
      let a := (if 0 <=? e then Z.pos m * 2 ^ e else Z.pos m / 2 ^ (- e))%Z in
      Fin (if s then (- a)%Z else a)
  end.

(** A double that is neither an infinity nor [NaN]. *)
Definition finite (x : float) : bool :=
  match Prim2SF x with
  | S754_zero _ | S754_finite _ _ _ => true
  | _ => false
  end.
End Double.

#[export] Instance Binary64 : JSNumber PrimFloat.float := {
  num_of_Z := Double.of_Z;
  num_add := PrimFloat.add;
  num_sub := PrimFloat.sub;
  num_mul := PrimFloat.mul;
  num_div := PrimFloat.div;
  num_opp := PrimFloat.opp;
  num_lt := PrimFloat.ltb;
  num_eq := PrimFloat.eqb;
  Math_sqrt := PrimFloat.sqrt;
  Math_floor := Double.floor;
  ToIntegerOrInfinity := Double.toIntegerOrInfinity
}.

(** *** Exact arithmetic

    Rationals in canonical form.  The square root has no rational definition:
    the instance takes it as an argument, and every statement about [Exact]
    holds for each choice.  Dividing by zero gives zero here; the statements
    made in exact arithmetic divide by non-zero numbers only. *)

Module Rational.
Definition ltb (a b : Qc) : bool :=
  match (a ?= b)%Qc with Lt => true | _ => false end.

Definition floor (a : Qc) : Qc := Q2Qc (inject_Z (Qfloor a)).

Definition toIntegerOrInfinity (a : Qc) : Integer :=
  Fin (if ltb a (Q2Qc 0) then Qceiling a else Qfloor a).
End Rational.

Definition Exact (sqrt : Qc -> Qc) : JSNumber Qc := {|
  num_of_Z := fun z => Q2Qc (inject_Z z);
  num_add := Qcplus;
  num_sub := Qcminus;
  num_mul := Qcmult;
  num_div := Qcdiv;
  num_opp := Qcopp;
  num_lt := Rational.ltb;
  num_eq := Qc_eq_bool;
  Math_sqrt := sqrt;
  Math_floor := Rational.floor;
  ToIntegerOrInfinity := Rational.toIntegerOrInfinity
|}.

(** ** The clock and the random generator

    [Date.now()], [new Date()] and [Math.random()] read the world.  A world
    lists the successive readings of the clock and the successive draws of
    the generator, with the number of each consumed so far. *)

Record World (num : Type) : Type := {
  clock : nat -> Z;
  entropy : nat -> num;
  clock_reads : nat;
  entropy_draws : nat
}.

Definition Eff (num A : Type) : Type := World num -> A * World num.

Definition ret {num A} (a : A) : Eff num A := fun w => (a, w).

Definition bind {num A B} (m : Eff num A) (k : A -> Eff num B) : Eff num B :=
  fun w => let (a, w') := m w in k a w'.

Notation "x <- m ;; k" := (bind m (fun x => k))
  (at level 61, m at next level, right associativity).

Definition Date_now {num} : Eff num Z :=
  fun w => (clock w (clock_reads w),
            {| clock := clock w; entropy := entropy w;
               clock_reads := S (clock_reads w);
               entropy_draws := entropy_draws w |}).

Definition Math_random {num} : Eff num num :=
  fun w => (entropy w (entropy_draws w),
            {| clock := clock w; entropy := entropy w;
               clock_reads := clock_reads w;
               entropy_draws := S (entropy_draws w) |}).

(** [for (const x of xs) { ... }] with an effectful body that yields a value. *)
Fixpoint mapM {num A B} (f : A -> Eff num B) (xs : list A) : Eff num (list B) :=
  match xs with
  | [] => ret []
  | x :: xs' => y <- f x ;; ys <- mapM f xs' ;; ret (y :: ys)
  end.

(** ** Text built from numbers

    A template literal that interpolates numbers is kept as the list of its
    pieces; how a number prints is left to the built-in conversions. *)

Inductive Piece (num : Type) : Type :=
| Lit (s : string)                  (* literal text, an interpolated string *)
| Whole (z : Z)                     (* `${n}` for an integer count or time *)
| Shown (x : num)                   (* `${x}` *)
| Fixed (digits : nat) (x : num)    (* x.toFixed(digits) *)
| Radix36 (x : num).                (* x.toString(36).substr(2, 9) *)

Arguments Lit {num} s.
Arguments Whole {num} z.

Definition Text (num : Type) : Type := list (Piece num).

(** [parts.join(sep)]. *)
Fixpoint join {num} (sep : string) (parts : list (Text num)) : Text num :=
  match parts with
  | [] => []
  | [p] => p
  | p :: ps => p ++ Lit sep :: join sep ps
  end.

(** ** Arrays and maps *)

Section Arrays.
Context {A : Type}.

(** [xs.sort(compare)], where [after a b] says that [compare(a, b) > 0].
    The sort is stable.  When the comparator orders the elements
    consistently, as the comparators of the program do on time stamps and on
    numbers other than [NaN], this is the result of every stable sort.  When
    it does not, as [(a, b) => a - b] on an array that holds [NaN], the
    language leaves the order to the implementation: what is stated about a
    sorted array of numbers is stated for arrays without [NaN]. *)
Fixpoint insert (after : A -> A -> bool) (x : A) (xs : list A) : list A :=
  match xs with
  | [] => [x]
  | y :: ys => if after x y then y :: insert after x ys else x :: y :: ys
  end.

Definition sort (after : A -> A -> bool) (xs : list A) : list A :=
  fold_right (insert after) [] xs.

(** A relative index of [slice], clamped to the array. *)
Definition relative_index (len : nat) (i : Integer) : nat :=
  match i with
  | NegInf => 0
  | Fin z => if (z <? 0)%Z then Z.to_nat (Z.max (Z.of_nat len + z) 0)%Z
             else Nat.min (Z.to_nat z) len
  | PosInf => len
  end.

(** [xs.slice(from, to)]. *)
Definition slice (xs : list A) (from to : Integer) : list A :=
  let k := relative_index (length xs) from in
  let final := relative_index (length xs) to in
  firstn (final - k) (skipn k xs).

(** [xs.slice(from)]. *)
Definition slice_from (xs : list A) (from : Integer) : list A :=
  skipn (relative_index (length xs) from) xs.

(** [xs.slice(-n)] for a literal [n]. *)
Definition last_n (n : nat) (xs : list A) : list A :=
  slice_from xs (Fin (- Z.of_nat n)).
End Arrays.

(** [xs[i]] for a number [i]: [None] is [undefined]. *)
Definition at_index {num} {N : JSNumber num} {A : Type} (xs : list A) (i : num) : option A :=
  match to_Z i with
  | Some z => if (z <? 0)%Z then None else nth_error xs (Z.to_nat z)
  | None => None
  end.

(** A [Map] with integer keys.  Entries are kept in insertion order; setting a
    key that is present replaces its value in place. *)
Section Maps.
Context {K V : Type} (eqk : K -> K -> bool).

Definition JSMap : Type := list (K * V).

Fixpoint Map_get (k : K) (m : JSMap) : option V :=
  match m with
  | [] => None
  | (k', v) :: m' => if eqk k k' then Some v else Map_get k m'
  end.

Definition Map_has (k : K) (m : JSMap) : bool :=
  match Map_get k m with Some _ => true | None => false end.

Fixpoint Map_set (k : K) (v : V) (m : JSMap) : JSMap :=
  match m with
  | [] => [(k, v)]
  | (k', v') :: m' => if eqk k k' then (k, v) :: m' else (k', v') :: Map_set k v m'
  end.

(** [if (!m.has(k)) m.set(k, init); m.set(k, f(m.get(k)!))]: the update every
    windowing loop performs. *)
Definition Map_update (k : K) (init : V) (f : V -> V) (m : JSMap) : JSMap :=
  let m1 := if Map_has k m then m else Map_set k init m in
  match Map_get k m1 with
  | Some v => Map_set k (f v) m1
  | None => m1
  end.
End Maps.

(** ** The data model ([lib/types.ts]) *)

Inductive Side : Type := buy | sell.

Inductive MetricType : Type := order_to_fill | market_data | signal_to_order.

Inductive AnomalyType : Type :=
  latency_spike | high_reject_rate | unusual_volume | fill_rate_drop.

Inductive Severity : Type := low | medium | high | critical.

(** A [Date] is its time value, in milliseconds since the epoch. *)
Definition Date : Type := Z.
Bind Scope Z_scope with Date.

Section DataModel.
Variable num : Type.

Record Fill : Type := {
  f_id : string;
  f_timestamp : Date;
  f_strategy_id : string;
  f_symbol : string;
  f_side : Side;
  f_quantity : num;
  f_price : num;
  f_venue : string;
  f_latency_ms : num;
  f_order_id : string
}.

Record Cancel : Type := {
  c_id : string;
  c_timestamp : Date;
  c_strategy_id : string;
  c_symbol : string;
  c_order_id : string;
  c_reason : string;
  c_latency_ms : num
}.

Record Reject : Type := {
  r_id : string;
  r_timestamp : Date;
  r_strategy_id : string;
  r_symbol : string;
  r_order_id : string;
  r_reason : string;
  r_error_code : string
}.

Record LatencyMetric : Type := {
  m_id : string;
  m_timestamp : Date;
  m_strategy_id : string;
  m_metric_type : MetricType;
  m_latency_ms : num;
  m_percentile_50 : option num;
  m_percentile_95 : option num;
  m_percentile_99 : option num
}.

(** [date] is the UTC calendar day of the snapshot, counted from the epoch:
    the day the [YYYY-MM-DD] prefix of an ISO time stamp names.  The
    percentile fields are [None] where the program would store
    [undefined]. *)
Record StrategyMetrics : Type := {
  strategy_id : string;
  date : Z;
  total_fills : nat;
  total_cancels : nat;
  total_rejects : nat;
  fill_rate : num;
  cancel_rate : num;
  reject_rate : num;
  avg_latency_ms : num;
  p95_latency_ms : option num;
  p99_latency_ms : option num;
  total_volume : num;
  total_pnl : num
}.

Record Anomaly : Type := {
  a_id : Text num;
  a_timestamp : Date;
  a_strategy_id : string;
  anomaly_type : AnomalyType;
  severity : Severity;
  description : Text num;
  metric_value : num;
  threshold_value : num;
  detected_at : Date
}.

Record SimulationParameters : Type := {
  max_position_size : option num;
  order_timeout_ms : option num;
  min_fill_rate : option num;
  max_latency_ms : option num;
  risk_multiplier : option num
}.

Record WhatIfScenario : Type := {
  s_id : Text num;
  s_name : Text num;
  s_strategy_id : string;
  s_parameters : SimulationParameters;
  projected_metrics : StrategyMetrics;
  created_at : Date
}.

Record TimeSeriesPoint : Type := {
  timestamp : Date;
  value : num
}.

Record PerformanceMetrics : Type := {
  fillRate : num;
  cancelRate : num;
  rejectRate : num;
  avgLatency : num;
  p50Latency : option num;
  p95Latency : option num;
  p99Latency : option num;
  totalVolume : num;
  totalPnl : num;
  sharpeRatio : num;
  maxDrawdown : num
}.
End DataModel.


(** [new Date().toISOString().split("T")[0]]. *)
Definition toISODate (now : Date) : Z := (now / 86400000)%Z.

(** [a.getTime() - b.getTime() > 0]. *)
Definition later (a b : Date) : bool := (0 <? a - b)%Z.

(** ** The metrics calculator ([lib/metrics/calculator.ts]) *)

Module MetricsCalculator.
Section WithNumbers.
Context {num : Type} {N : JSNumber num}.
Local Open Scope js_scope.

(** [Math.floor(t.getTime() / (intervalMinutes * 60 * 1000))], for a
    positive whole number of minutes: time values are integers below
    2^53, on which the rounded quotient has the floor of the exact one. *)
Definition windowKey (t : Date) (intervalMinutes : Z) : Z :=
  (t / (intervalMinutes * 60 * 1000))%Z.

(** [new Date(key * intervalMinutes * 60 * 1000)]. *)
Definition windowStart (key intervalMinutes : Z) : Date :=
  (key * intervalMinutes * 60 * 1000)%Z.

Inductive EventType : Type := fill_event | cancel_event | reject_event.

Record WindowCount : Type := { wc_fills : nat; wc_total : nat }.

Definition count_event (type : EventType) (window : WindowCount) : WindowCount :=
  {| wc_fills := match type with
                 | fill_event => S (wc_fills window)
                 | _ => wc_fills window
                 end;
     wc_total := S (wc_total window) |}.

(** Calculate fill rate over time. *)
Definition calculateFillRateTimeSeries
    (fills : list (Fill num)) (cancels : list (Cancel num))
    (rejects : list Reject) (intervalMinutes : Z)
    : list (TimeSeriesPoint num) :=
  let allEvents :=
    sort (fun a b => later (fst a) (fst b))
         (map (fun f => (f_timestamp f, fill_event)) fills
          ++ map (fun c => (c_timestamp c, cancel_event)) cancels
          ++ map (fun r => (r_timestamp r, reject_event)) rejects) in
  let windows :=
    fold_left
      (fun windows event =>
         Map_update Z.eqb (windowKey (fst event) intervalMinutes)
                    {| wc_fills := 0; wc_total := 0 |}
                    (count_event (snd event)) windows)
      allEvents [] in
  sort (fun a b => later (timestamp a) (timestamp b))
       (map (fun entry =>
               {| timestamp := windowStart (fst entry) intervalMinutes;
                  value := if (0 <? wc_total (snd entry))%nat
                           then num_of_nat (wc_fills (snd entry))
                                / num_of_nat (wc_total (snd entry))
                           else num_of_Z 0 |})
            windows).

Record LatencyStats : Type := {
  p50 : option num;
  p95 : option num;
  p99 : option num;
  avg : num
}.

Definition getPercentile (latencies : list num) (p : num) : option num :=
  let index := Math_floor (num_of_nat (length latencies) * p) in
  at_index latencies (Math_min index (num_of_nat (length latencies) - num_of_Z 1)).

(** Calculate latency percentiles. *)
Definition calculateLatencyPercentiles (metrics : list (LatencyMetric num))
    : LatencyStats :=
  if length metrics =? 0 then
    {| p50 := Some (num_of_Z 0); p95 := Some (num_of_Z 0);
       p99 := Some (num_of_Z 0); avg := num_of_Z 0 |}
  else
    let latencies :=
      sort (fun a b => a - b >? num_of_Z 0) (map (@m_latency_ms num) metrics) in
    let avg := sum latencies / num_of_nat (length latencies) in
    {| p50 := getPercentile latencies (decimal 5 10);
       p95 := getPercentile latencies (decimal 95 100);
       p99 := getPercentile latencies (decimal 99 100);
       avg := avg |}.

(** Calculate latency over time. *)
Definition calculateLatencyTimeSeries
    (metrics : list (LatencyMetric num)) (intervalMinutes : Z)
    : list (TimeSeriesPoint num) :=
  let windows :=
    fold_left
      (fun windows metric =>
         Map_update Z.eqb (windowKey (m_timestamp metric) intervalMinutes)
                    [] (fun latencies => latencies ++ [m_latency_ms metric])
                    windows)
      metrics [] in
  sort (fun a b => later (timestamp a) (timestamp b))
       (map (fun entry =>
               {| timestamp := windowStart (fst entry) intervalMinutes;
                  value := sum (snd entry) / num_of_nat (length (snd entry)) |})
            windows).

(** Calculate volume over time. *)
Definition calculateVolumeTimeSeries
    (fills : list (Fill num)) (intervalMinutes : Z)
    : list (TimeSeriesPoint num) :=
  let windows :=
    fold_left
      (fun windows fill =>
         Map_update Z.eqb (windowKey (f_timestamp fill) intervalMinutes)
                    (num_of_Z 0) (fun volume => volume + f_quantity fill)
                    windows)
      fills [] in
  sort (fun a b => later (timestamp a) (timestamp b))
       (map (fun entry =>
               {| timestamp := windowStart (fst entry) intervalMinutes;
                  value := snd entry |})
            windows).

(** [(fill.side === "buy" ? -1 : 1) * fill.quantity * fill.price]. *)
Definition fill_pnl (fill : Fill num) : num :=
  (match f_side fill with buy => num_of_Z (-1) | sell => num_of_Z 1 end)
  * f_quantity fill * f_price fill.

(** The running total the [map] callback of [calculatePnLTimeSeries] keeps in
    [cumulative]. *)
Fixpoint accumulate (cumulative : num) (intervalMinutes : Z)
    (entries : list (Z * num)) : list (TimeSeriesPoint num) :=
  match entries with
  | [] => []
  | (key, pnl) :: rest =>
      let cumulative := cumulative + pnl in
      {| timestamp := windowStart key intervalMinutes; value := cumulative |}
      :: accumulate cumulative intervalMinutes rest
  end.

(** Calculate PnL over time. *)
Definition calculatePnLTimeSeries
    (fills : list (Fill num)) (intervalMinutes : Z)
    : list (TimeSeriesPoint num) :=
  let windows :=
    fold_left
      (fun windows fill =>
         Map_update Z.eqb (windowKey (f_timestamp fill) intervalMinutes)
                    (num_of_Z 0) (fun total => total + fill_pnl fill)
                    windows)
      fills [] in
  accumulate (num_of_Z 0) intervalMinutes
             (sort (fun a b => (0 <? fst a - fst b)%Z) windows).

(** The loop of [calculateSharpeRatio]: one return per point after the
    first. *)
Fixpoint returns_of (pnlSeries : list (TimeSeriesPoint num)) : list num :=
  match pnlSeries with
  | previous :: (current :: _) as rest =>
      (value current - value previous)
      / Math_abs (or_else (value previous) (num_of_Z 1))
      :: returns_of rest
  | _ => []
  end.

(** Calculate Sharpe ratio. *)
Definition calculateSharpeRatio
    (pnlSeries : list (TimeSeriesPoint num)) (riskFreeRate : num) : num :=
  if (length pnlSeries <? 2)%nat then num_of_Z 0
  else
    let returns := returns_of pnlSeries in
    if length returns =? 0 then num_of_Z 0
    else
      let avgReturn := sum returns / num_of_nat (length returns) in
      let variance :=
        fold_left (fun sum r => sum + Math_pow2 (r - avgReturn)) returns (num_of_Z 0)
        / num_of_nat (length returns) in
      let stdDev := Math_sqrt variance in
      if stdDev === num_of_Z 0 then num_of_Z 0
      else (avgReturn - riskFreeRate / num_of_Z 252) / stdDev.

(** The default [riskFreeRate = 0.02]. *)
Definition defaultRiskFreeRate : num := decimal 2 100.

(** One turn of the loop of [calculateMaxDrawdown], on the pair
    [(maxDrawdown, peak)]. *)
Definition drawdown_step (state : num * num) (point : TimeSeriesPoint num)
    : num * num :=
  let (maxDrawdown, peak) := state in
  let peak := if value point >? peak then value point else peak in
  let drawdown := (peak - value point) / Math_abs (or_else peak (num_of_Z 1)) in
  (Math_max maxDrawdown drawdown, peak).

(** Calculate maximum drawdown. *)
Definition calculateMaxDrawdown (pnlSeries : list (TimeSeriesPoint num)) : num :=
  match pnlSeries with
  | [] => num_of_Z 0
  | first :: _ => fst (fold_left drawdown_step pnlSeries (num_of_Z 0, value first))
  end.

(** Calculate comprehensive performance metrics. *)
Definition calculatePerformanceMetrics
    (fills : list (Fill num)) (cancels : list (Cancel num))
    (rejects : list Reject) (latencyMetrics : list (LatencyMetric num))
    : PerformanceMetrics num :=
  let totalOrders := (length fills + length cancels + length rejects)%nat in
  let fillRate :=
    if (0 <? totalOrders)%nat then num_of_nat (length fills) / num_of_nat totalOrders
    else num_of_Z 0 in
  let cancelRate :=
    if (0 <? totalOrders)%nat then num_of_nat (length cancels) / num_of_nat totalOrders
    else num_of_Z 0 in
  let rejectRate :=
    if (0 <? totalOrders)%nat then num_of_nat (length rejects) / num_of_nat totalOrders
    else num_of_Z 0 in
  let latencyStats := calculateLatencyPercentiles latencyMetrics in
  let totalVolume :=
    fold_left (fun sum fill => sum + f_quantity fill) fills (num_of_Z 0) in
  let pnlSeries := calculatePnLTimeSeries fills 60%Z in
  let totalPnl :=
    match pnlSeries with
    | [] => num_of_Z 0
    | first :: _ => value (last pnlSeries first)
    end in
  let sharpeRatio := calculateSharpeRatio pnlSeries defaultRiskFreeRate in
  let maxDrawdown := calculateMaxDrawdown pnlSeries in
  {| fillRate := fillRate;
     cancelRate := cancelRate;
     rejectRate := rejectRate;
     avgLatency := avg latencyStats;
     p50Latency := p50 latencyStats;
     p95Latency := p95 latencyStats;
     p99Latency := p99 latencyStats;
     totalVolume := totalVolume;
     totalPnl := totalPnl;
     sharpeRatio := sharpeRatio;
     maxDrawdown := maxDrawdown |}.

(** Calculate metrics by strategy. *)
Definition calculateStrategyMetrics
    (strategyId : string)
    (fills : list (Fill num)) (cancels : list (Cancel num))
    (rejects : list Reject) (latencyMetrics : list (LatencyMetric num))
    : Eff num (StrategyMetrics num) :=
  let strategyFills :=
    filter (fun f => String.eqb (f_strategy_id f) strategyId) fills in
  let strategyCancels :=
    filter (fun c => String.eqb (c_strategy_id c) strategyId) cancels in
  let strategyRejects :=
    filter (fun r => String.eqb (r_strategy_id r) strategyId) rejects in
  let strategyLatency :=
    filter (fun m => String.eqb (m_strategy_id m) strategyId) latencyMetrics in
  let perf :=
    calculatePerformanceMetrics strategyFills strategyCancels strategyRejects
                                strategyLatency in
  now <- Date_now ;;
  ret {| strategy_id := strategyId;
         date := toISODate now;
         total_fills := length strategyFills;
         total_cancels := length strategyCancels;
         total_rejects := length strategyRejects;
         fill_rate := fillRate perf;
         cancel_rate := cancelRate perf;
         reject_rate := rejectRate perf;
         avg_latency_ms := avgLatency perf;
         p95_latency_ms := p95Latency perf;
         p99_latency_ms := p99Latency perf;
         total_volume := totalVolume perf;
         total_pnl := totalPnl perf |}.
End WithNumbers.
End MetricsCalculator.

(** ** The what-if simulator ([lib/whatif/simulator.ts]) *)

(** The outcome of a function that may throw. *)
Inductive Outcome (A : Type) : Type :=
| Returns (a : A)
| Throws (message : string).

Arguments Throws {A} message.

Module WhatIfSimulator.
Section WithNumbers.
Context {num : Type} {N : JSNumber num}.
Local Open Scope js_scope.

(** [if (parameters.field)]: the field is present and truthy. *)
Definition given (field : option num) : option num :=
  match field with
  | Some x => if truthy x then Some x else None
  | None => None
  end.

(** The [filter] callback of [applyPositionSizeLimit], with the variable
    [currentPosition] it closes over. *)
Fixpoint position_filter (currentPosition : num) (fills : list (Fill num))
    (maxSize : num) : list (Fill num) :=
  match fills with
  | [] => []
  | fill :: rest =>
      let positionChange :=
        match f_side fill with
        | buy => f_quantity fill
        | sell => - f_quantity fill
        end in
      let newPosition := currentPosition + positionChange in
      if Math_abs newPosition <=? maxSize
      then fill :: position_filter newPosition rest maxSize
      else position_filter currentPosition rest maxSize
  end.

(** Apply position size limit. *)
Definition applyPositionSizeLimit (fills : list (Fill num)) (maxSize : num)
    : list (Fill num) :=
  position_filter (num_of_Z 0) fills maxSize.

(** Apply order timeout constraint. *)
Definition applyOrderTimeout
    (fills : list (Fill num)) (cancels : list (Cancel num))
    (latency : list (LatencyMetric num)) (timeoutMs : num)
    : list (Fill num) * list (Cancel num) :=
  let validFills := filter (fun fill => f_latency_ms fill <=? timeoutMs) fills in
  let timedOutFills := filter (fun fill => f_latency_ms fill >? timeoutMs) fills in
  let newCancels :=
    map (fun fill =>
           {| c_id := ("cancel-timeout-" ++ f_id fill)%string;
              c_timestamp := f_timestamp fill;
              c_strategy_id := f_strategy_id fill;
              c_symbol := f_symbol fill;
              c_order_id := f_order_id fill;
              c_reason := "Timeout";
              c_latency_ms := timeoutMs |})
        timedOutFills in
  (validFills, cancels ++ newCancels).

(** The fill a cancel is converted into; the three random draws are made in
    the order of the fields [side], [quantity], [price]. *)
Definition convert (cancel : Cancel num) : Eff num (Fill num) :=
  r_side <- Math_random ;;
  r_quantity <- Math_random ;;
  r_price <- Math_random ;;
  ret {| f_id := ("fill-converted-" ++ c_id cancel)%string;
         f_timestamp := c_timestamp cancel;
         f_strategy_id := c_strategy_id cancel;
         f_symbol := c_symbol cancel;
         f_side := if r_side >? decimal 5 10 then buy else sell;
         f_quantity := Math_floor (r_quantity * num_of_Z 500) + num_of_Z 100;
         f_price := r_price * num_of_Z 200 + num_of_Z 50;
         f_venue := "SIMULATED";
         f_latency_ms := c_latency_ms cancel;
         f_order_id := c_order_id cancel |}.

(** The loop of [applyMinFillRate], which stops once [converted] reaches
    [ordersToConvert]. *)
Fixpoint convert_cancels (converted : nat) (ordersToConvert : num)
    (cancels : list (Cancel num)) : Eff num (list (Fill num)) :=
  match cancels with
  | [] => ret []
  | cancel :: rest =>
      if num_of_nat converted >=? ordersToConvert then ret []
      else
        fill <- convert cancel ;;
        fills <- convert_cancels (S converted) ordersToConvert rest ;;
        ret (fill :: fills)
  end.

(** [fills.length / totalOrders], the unguarded quotient at the head of
    [applyMinFillRate]. *)
Definition currentFillRate
    (fills : list (Fill num)) (cancels : list (Cancel num))
    (rejects : list Reject) : num :=
  let totalOrders := (length fills + length cancels + length rejects)%nat in
  num_of_nat (length fills) / num_of_nat totalOrders.

(** Apply minimum fill rate constraint. *)
Definition applyMinFillRate
    (fills : list (Fill num)) (cancels : list (Cancel num))
    (rejects : list Reject) (minFillRate : num)
    : Eff num (list (Fill num) * list (Cancel num) * list Reject) :=
  let totalOrders := (length fills + length cancels + length rejects)%nat in
  if currentFillRate fills cancels rejects >=? minFillRate then
    ret (fills, cancels, rejects)
  else
    let targetFills := Math_ceil (num_of_nat totalOrders * minFillRate) in
    let ordersToConvert := targetFills - num_of_nat (length fills) in
    convertedFills <-
      convert_cancels 0 ordersToConvert
        (slice cancels (Fin 0) (ToIntegerOrInfinity ordersToConvert)) ;;
    ret (fills ++ convertedFills,
         slice_from cancels (ToIntegerOrInfinity ordersToConvert),
         rejects).

(** Apply maximum latency constraint. *)
Definition applyMaxLatency
    (fills : list (Fill num)) (cancels : list (Cancel num))
    (latency : list (LatencyMetric num)) (maxLatencyMs : num)
    : list (Fill num) * list (Cancel num) :=
  let validFills := filter (fun fill => f_latency_ms fill <=? maxLatencyMs) fills in
  let highLatencyFills :=
    filter (fun fill => f_latency_ms fill >? maxLatencyMs) fills in
  let newCancels :=
    map (fun fill =>
           {| c_id := ("cancel-latency-" ++ f_id fill)%string;
              c_timestamp := f_timestamp fill;
              c_strategy_id := f_strategy_id fill;
              c_symbol := f_symbol fill;
              c_order_id := f_order_id fill;
              c_reason := "High latency";
              c_latency_ms := f_latency_ms fill |})
        highLatencyFills in
  (validFills, cancels ++ newCancels).

(** [if (field) parts.push(text)]. *)
Definition push_if (field : option num) (text : num -> Text num)
    (parts : list (Text num)) : list (Text num) :=
  match given field with
  | Some x => parts ++ [text x]
  | None => parts
  end.

(** Generate a descriptive name for the scenario. *)
Definition generateScenarioName (parameters : SimulationParameters num)
    : Text num :=
  let parts := [] in
  let parts := push_if (max_position_size parameters)
                 (fun x => [Lit "MaxPos:"; Shown x]) parts in
  let parts := push_if (order_timeout_ms parameters)
                 (fun x => [Lit "Timeout:"; Shown x; Lit "ms"]) parts in
  let parts := push_if (min_fill_rate parameters)
                 (fun x => [Lit "MinFill:"; Fixed 0 (x * num_of_Z 100); Lit "%"])
                 parts in
  let parts := push_if (max_latency_ms parameters)
                 (fun x => [Lit "MaxLat:"; Shown x; Lit "ms"]) parts in
  let parts := push_if (risk_multiplier parameters)
                 (fun x => [Lit "Risk:"; Shown x; Lit "x"]) parts in
  if (0 <? length parts)%nat then join " | " parts
  else [Lit "Default Scenario"].

(** Simulate the impact of parameter changes on strategy performance. *)
Definition simulateScenario
    (strategyId : string)
    (fills : list (Fill num)) (cancels : list (Cancel num))
    (rejects : list Reject) (latencyMetrics : list (LatencyMetric num))
    (parameters : SimulationParameters num)
    : Eff num (WhatIfScenario num) :=
  let strategyFills :=
    filter (fun f => String.eqb (f_strategy_id f) strategyId) fills in
  let strategyCancels :=
    filter (fun c => String.eqb (c_strategy_id c) strategyId) cancels in
  let strategyRejects :=
    filter (fun r => String.eqb (r_strategy_id r) strategyId) rejects in
  let strategyLatency :=
    filter (fun m => String.eqb (m_strategy_id m) strategyId) latencyMetrics in
  let simulatedFills := strategyFills in
  let simulatedCancels := strategyCancels in
  let simulatedRejects := strategyRejects in
  let simulatedLatency := strategyLatency in
  let simulatedFills :=
    match given (max_position_size parameters) with
    | Some maxSize => applyPositionSizeLimit simulatedFills maxSize
    | None => simulatedFills
    end in
  let '(simulatedFills, simulatedCancels) :=
    match given (order_timeout_ms parameters) with
    | Some timeoutMs =>
        applyOrderTimeout simulatedFills simulatedCancels simulatedLatency timeoutMs
    | None => (simulatedFills, simulatedCancels)
    end in
  fillRateResults <-
    match given (min_fill_rate parameters) with
    | Some minFillRate =>
        applyMinFillRate simulatedFills simulatedCancels simulatedRejects minFillRate
    | None => ret (simulatedFills, simulatedCancels, simulatedRejects)
    end ;;
  let '(simulatedFills, simulatedCancels, simulatedRejects) := fillRateResults in
  let '(simulatedFills, simulatedCancels) :=
    match given (max_latency_ms parameters) with
    | Some maxLatencyMs =>
        applyMaxLatency simulatedFills simulatedCancels simulatedLatency maxLatencyMs
    | None => (simulatedFills, simulatedCancels)
    end in
  projectedMetrics <-
    MetricsCalculator.calculateStrategyMetrics
      strategyId simulatedFills simulatedCancels simulatedRejects simulatedLatency ;;
  let projectedMetrics :=
    match given (risk_multiplier parameters) with
    | Some multiplier =>
        {| strategy_id := strategy_id projectedMetrics;
           date := date projectedMetrics;
           total_fills := total_fills projectedMetrics;
           total_cancels := total_cancels projectedMetrics;
           total_rejects := total_rejects projectedMetrics;
           fill_rate := fill_rate projectedMetrics;
           cancel_rate := cancel_rate projectedMetrics;
           reject_rate := reject_rate projectedMetrics;
           avg_latency_ms := avg_latency_ms projectedMetrics;
           p95_latency_ms := p95_latency_ms projectedMetrics;
           p99_latency_ms := p99_latency_ms projectedMetrics;
           total_volume := total_volume projectedMetrics * multiplier;
           total_pnl := total_pnl projectedMetrics * multiplier |}
    | None => projectedMetrics
    end in
  now <- Date_now ;;
  random <- Math_random ;;
  created <- Date_now ;;
  ret {| s_id := [Lit "scenario-"; Whole now; Lit "-"; Radix36 random];
         s_name := generateScenarioName parameters;
         s_strategy_id := strategyId;
         s_parameters := parameters;
         projected_metrics := projectedMetrics;
         created_at := created |}.

Record Comparison : Type := {
  scenario : WhatIfScenario num;
  pnlDiff : num;
  fillRateDiff : num;
  latencyDiff : num
}.

Record ComparisonResult : Type := {
  best : WhatIfScenario num;
  worst : WhatIfScenario num;
  comparison : list Comparison
}.

(** Compare multiple scenarios.  [reduce] without an initial value starts
    from the first element. *)
Definition compareScenarios (scenarios : list (WhatIfScenario num))
    : Outcome ComparisonResult :=
  match scenarios with
  | [] => Throws "No scenarios to compare"
  | baseline :: rest =>
      let best :=
        fold_left
          (fun prev curr =>
             if total_pnl (projected_metrics curr) >? total_pnl (projected_metrics prev)
             then curr else prev)
          rest baseline in
      let worst :=
        fold_left
          (fun prev curr =>
             if total_pnl (projected_metrics curr) <? total_pnl (projected_metrics prev)
             then curr else prev)
          rest baseline in
      let comparison :=
        map (fun scenario =>
               {| scenario := scenario;
                  pnlDiff := total_pnl (projected_metrics scenario)
                             - total_pnl (projected_metrics baseline);
                  fillRateDiff := fill_rate (projected_metrics scenario)
                                  - fill_rate (projected_metrics baseline);
                  latencyDiff := avg_latency_ms (projected_metrics scenario)
                                 - avg_latency_ms (projected_metrics baseline) |})
            scenarios in
      Returns {| best := best; worst := worst; comparison := comparison |}
  end.
End WithNumbers.
End WhatIfSimulator.

(** ** The anomaly detector ([lib/anomaly/detector.ts]) *)

Module AnomalyDetector.
Section WithNumbers.
Context {num : Type} {N : JSNumber num}.
Local Open Scope js_scope.

Record AnomalyThresholds : Type := {
  latencySpike : num;      (* milliseconds *)
  highRejectRate : num;    (* percentage *)
  fillRateDrop : num;      (* percentage *)
  volumeMultiplier : num   (* multiplier of average *)
}.

Definition DEFAULT_THRESHOLDS : AnomalyThresholds := {|
  latencySpike := num_of_Z 150;
  highRejectRate := decimal 15 100;
  fillRateDrop := decimal 6 10;
  volumeMultiplier := num_of_Z 3
|}.

(** The detector object: its only field. *)
Variable thresholds : AnomalyThresholds.

(** Helper to calculate severity based on thresholds. *)
Definition calculateSeverity (value : num) (thresholds : num * num * num)
    : Severity :=
  let '(t0, t1, t2) := thresholds in
  if value <? t0 then low
  else if value <? t1 then medium
  else if value <? t2 then high
  else critical.

(** The object literal every detector pushes: the identifier reads the
    clock and the generator, [detected_at] reads the clock again. *)
Definition report (prefix : string) (timestamp : Date) (strategyId : string)
    (type : AnomalyType) (severity : Severity) (description : Text num)
    (metric threshold : num) : Eff num (Anomaly num) :=
  now <- Date_now ;;
  random <- Math_random ;;
  detected <- Date_now ;;
  ret {| a_id := [Lit prefix; Whole now; Lit "-"; Radix36 random];
         a_timestamp := timestamp;
         a_strategy_id := strategyId;
         anomaly_type := type;
         severity := severity;
         description := description;
         metric_value := metric;
         threshold_value := threshold;
         detected_at := detected |}.

(** [for (const x of xs) { ... anomalies.push(...) ... }]. *)
Definition collect {A : Type} (body : A -> Eff num (list (Anomaly num)))
    (xs : list A) : Eff num (list (Anomaly num)) :=
  found <- mapM body xs ;; ret (concat found).

Definition mean (values : list num) : num :=
  sum values / num_of_nat (length values).

Definition variance (values : list num) : num :=
  fold_left (fun sum val => sum + Math_pow2 (val - mean values)) values (num_of_Z 0)
  / num_of_nat (length values).

(** [(currentLatency - mean) / (stdDev || 1)] over the window before
    position [i]. *)
Definition window_before (sortedMetrics : list (LatencyMetric num))
    (windowSize i : nat) : list num :=
  map (@m_latency_ms num)
      (slice sortedMetrics (Fin (Z.of_nat i - Z.of_nat windowSize)) (Fin (Z.of_nat i))).

Definition zScore (windowLatencies : list num) (currentLatency : num) : num :=
  let stdDev := Math_sqrt (variance windowLatencies) in
  (currentLatency - mean windowLatencies) / or_else stdDev (num_of_Z 1).

(** The test of [detectLatencySpikes]. *)
Definition is_spike (windowLatencies : list num) (currentLatency : num) : bool :=
  (zScore windowLatencies currentLatency >? num_of_Z 3)
  || (currentLatency >? latencySpike thresholds).

(** One turn of the loop of [detectLatencySpikes], at position [i]. *)
Definition inspect_latency (sortedMetrics : list (LatencyMetric num))
    (windowSize i : nat) : Eff num (list (Anomaly num)) :=
  match nth_error sortedMetrics i with
  | None => ret []
  | Some current =>
      let windowLatencies := window_before sortedMetrics windowSize i in
      let stdDev := Math_sqrt (variance windowLatencies) in
      let currentLatency := m_latency_ms current in
      let zScore := zScore windowLatencies currentLatency in
      if is_spike windowLatencies currentLatency then
        let severity :=
          calculateSeverity zScore (num_of_Z 2, num_of_Z 3, num_of_Z 4) in
        anomaly <-
          report "anomaly-latency-" (m_timestamp current) (m_strategy_id current)
            latency_spike severity
            [Lit "Latency spike detected: "; Fixed 2 currentLatency; Lit "ms (";
             Fixed 2 zScore; Lit " std devs above mean)"]
            currentLatency
            (mean windowLatencies + num_of_Z 3 * stdDev) ;;
        ret [anomaly]
      else ret []
  end.

(** Detect latency spikes using moving average and standard deviation. *)
Definition detectLatencySpikes (metrics : list (LatencyMetric num))
    (windowSize : nat) : Eff num (list (Anomaly num)) :=
  if (length metrics <? windowSize)%nat then ret []
  else
    let sortedMetrics :=
      sort (fun a b => later (m_timestamp a) (m_timestamp b)) metrics in
    collect (inspect_latency sortedMetrics windowSize)
            (seq windowSize (length sortedMetrics - windowSize)).

Record RejectWindow : Type := {
  rw_fills : nat;
  rw_cancels : nat;
  rw_rejects : nat;
  rw_timestamp : Date
}.

Definition bump (type : MetricsCalculator.EventType) (window : RejectWindow)
    : RejectWindow :=
  match type with
  | MetricsCalculator.fill_event =>
      {| rw_fills := S (rw_fills window); rw_cancels := rw_cancels window;
         rw_rejects := rw_rejects window; rw_timestamp := rw_timestamp window |}
  | MetricsCalculator.cancel_event =>
      {| rw_fills := rw_fills window; rw_cancels := S (rw_cancels window);
         rw_rejects := rw_rejects window; rw_timestamp := rw_timestamp window |}
  | MetricsCalculator.reject_event =>
      {| rw_fills := rw_fills window; rw_cancels := rw_cancels window;
         rw_rejects := S (rw_rejects window); rw_timestamp := rw_timestamp window |}
  end.

(** The closure [addToWindow] of [detectHighRejectRate]. *)
Definition addToWindow (windowMinutes : Z)
    (strategyWindows : JSMap (K := string) (V := JSMap (K := Z) (V := RejectWindow)))
    (strategyId : string) (timestamp : Date) (type : MetricsCalculator.EventType)
    : JSMap (K := string) (V := JSMap (K := Z) (V := RejectWindow)) :=
  let windowKey := MetricsCalculator.windowKey timestamp windowMinutes in
  Map_update String.eqb strategyId []
    (Map_update Z.eqb windowKey
       {| rw_fills := 0; rw_cancels := 0; rw_rejects := 0;
          rw_timestamp := MetricsCalculator.windowStart windowKey windowMinutes |}
       (bump type))
    strategyWindows.

(** The check of one window of one strategy. *)
Definition inspect_rejects (strategyId : string) (entry : Z * RejectWindow)
    : Eff num (list (Anomaly num)) :=
  let window := snd entry in
  let total := (rw_fills window + rw_cancels window + rw_rejects window)%nat in
  if (total <? 5)%nat then ret []
  else
    let rejectRate := num_of_nat (rw_rejects window) / num_of_nat total in
    if rejectRate >? highRejectRate thresholds then
      let severity :=
        calculateSeverity rejectRate (decimal 1 10, decimal 15 100, decimal 25 100) in
      anomaly <-
        report "anomaly-reject-" (rw_timestamp window) strategyId
          high_reject_rate severity
          [Lit "High reject rate detected: "; Fixed 1 (rejectRate * num_of_Z 100);
           Lit "% ("; Whole (Z.of_nat (rw_rejects window)); Lit "/";
           Whole (Z.of_nat total); Lit " orders)"]
          rejectRate
          (highRejectRate thresholds) ;;
      ret [anomaly]
    else ret [].

(** Detect high reject rates. *)
Definition detectHighRejectRate
    (fills : list (Fill num)) (cancels : list (Cancel num))
    (rejects : list Reject) (windowMinutes : Z)
    : Eff num (list (Anomaly num)) :=
  let strategyWindows := [] in
  let strategyWindows :=
    fold_left (fun sw f => addToWindow windowMinutes sw (f_strategy_id f)
                             (f_timestamp f) MetricsCalculator.fill_event)
              fills strategyWindows in
  let strategyWindows :=
    fold_left (fun sw c => addToWindow windowMinutes sw (c_strategy_id c)
                             (c_timestamp c) MetricsCalculator.cancel_event)
              cancels strategyWindows in
  let strategyWindows :=
    fold_left (fun sw r => addToWindow windowMinutes sw (r_strategy_id r)
                             (r_timestamp r) MetricsCalculator.reject_event)
              rejects strategyWindows in
  collect (fun entry => collect (inspect_rejects (fst entry)) (snd entry))
          strategyWindows.

(** [new Set(ids)], in insertion order. *)
Definition Set_of (ids : list string) : list string :=
  fold_left (fun set id => if existsb (String.eqb id) set then set else set ++ [id])
            ids [].

(** The check of the volume series of one strategy. *)
Definition inspect_volume (fills : list (Fill num)) (windowMinutes : Z)
    (strategyId : string) : Eff num (list (Anomaly num)) :=
  let strategyFills :=
    filter (fun f => String.eqb (f_strategy_id f) strategyId) fills in
  let volumeSeries :=
    MetricsCalculator.calculateVolumeTimeSeries strategyFills windowMinutes in
  if (length volumeSeries <? 5)%nat then ret []
  else
    let volumes := map (@value num) volumeSeries in
    let avgVolume := sum volumes / num_of_nat (length volumes) in
    let recentWindows := last_n 5 volumeSeries in
    collect
      (fun window =>
         if value window >? avgVolume * volumeMultiplier thresholds then
           let multiplier := value window / avgVolume in
           let severity :=
             calculateSeverity multiplier (num_of_Z 2, num_of_Z 3, num_of_Z 5) in
           anomaly <-
             report "anomaly-volume-" (timestamp window) strategyId
               unusual_volume severity
               [Lit "Unusual volume spike: "; Fixed 0 (value window); Lit " (";
                Fixed 1 multiplier; Lit "x average)"]
               (value window)
               (avgVolume * volumeMultiplier thresholds) ;;
           ret [anomaly]
         else ret [])
      recentWindows.

(** Detect unusual volume patterns.  The keys of [strategyVolumes] are the
    strategies of the fills, in order of first appearance. *)
Definition detectUnusualVolume (fills : list (Fill num)) (windowMinutes : Z)
    : Eff num (list (Anomaly num)) :=
  let strategyVolumes :=
    fold_left
      (fun sv fill =>
         if Map_has String.eqb (f_strategy_id fill) sv then sv
         else Map_set String.eqb (f_strategy_id fill)
                      ([] : list (TimeSeriesPoint num)) sv)
      fills [] in
  collect (fun entry => inspect_volume fills windowMinutes (fst entry))
          strategyVolumes.

(** The check of the fill-rate series of one strategy. *)
Definition inspect_fill_rate
    (fills : list (Fill num)) (cancels : list (Cancel num))
    (rejects : list Reject) (windowMinutes : Z) (strategyId : string)
    : Eff num (list (Anomaly num)) :=
  let strategyFills :=
    filter (fun f => String.eqb (f_strategy_id f) strategyId) fills in
  let strategyCancels :=
    filter (fun c => String.eqb (c_strategy_id c) strategyId) cancels in
  let strategyRejects :=
    filter (fun r => String.eqb (r_strategy_id r) strategyId) rejects in
  let fillRateSeries :=
    MetricsCalculator.calculateFillRateTimeSeries
      strategyFills strategyCancels strategyRejects windowMinutes in
  if (length fillRateSeries <? 5)%nat then ret []
  else
    let fillRates := map (@value num) fillRateSeries in
    let avgFillRate := sum fillRates / num_of_nat (length fillRates) in
    let recentWindows := last_n 5 fillRateSeries in
    collect
      (fun window =>
         if (value window <? avgFillRate * fillRateDrop thresholds)
            && (avgFillRate >? decimal 5 10) then
           let dropPercentage :=
             (avgFillRate - value window) / avgFillRate * num_of_Z 100 in
           let severity :=
             calculateSeverity dropPercentage
                               (num_of_Z 20, num_of_Z 40, num_of_Z 60) in
           anomaly <-
             report "anomaly-fillrate-" (timestamp window) strategyId
               fill_rate_drop severity
               [Lit "Fill rate drop detected: "; Fixed 1 (value window * num_of_Z 100);
                Lit "% (down "; Fixed 1 dropPercentage; Lit "% from average)"]
               (value window)
               (avgFillRate * fillRateDrop thresholds) ;;
           ret [anomaly]
         else ret [])
      recentWindows.

(** Detect fill rate drops. *)
Definition detectFillRateDrop
    (fills : list (Fill num)) (cancels : list (Cancel num))
    (rejects : list Reject) (windowMinutes : Z)
    : Eff num (list (Anomaly num)) :=
  let strategyIds :=
    Set_of (map (@f_strategy_id num) fills ++ map (@c_strategy_id num) cancels) in
  collect (inspect_fill_rate fills cancels rejects windowMinutes) strategyIds.

(** Run all anomaly detection algorithms. *)
Definition detectAll
    (fills : list (Fill num)) (cancels : list (Cancel num))
    (rejects : list Reject) (latencyMetrics : list (LatencyMetric num))
    : Eff num (list (Anomaly num)) :=
  latencyAnomalies <- detectLatencySpikes latencyMetrics 20 ;;
  rejectAnomalies <- detectHighRejectRate fills cancels rejects 60 ;;
  volumeAnomalies <- detectUnusualVolume fills 60 ;;
  fillRateAnomalies <- detectFillRateDrop fills cancels rejects 60 ;;
  ret (sort (fun a b => later (a_timestamp b) (a_timestamp a))
            (latencyAnomalies ++ rejectAnomalies ++ volumeAnomalies
             ++ fillRateAnomalies)).
End WithNumbers.
End AnomalyDetector.


(** ** Sample data *)

Module Samples.
Section WithNumbers.
Context {num : Type} {N : JSNumber num}.

(** The parameters object [{}]. *)
Definition noParameters : SimulationParameters num := {|
  max_position_size := None;
  order_timeout_ms := None;
  min_fill_rate := None;
  max_latency_ms := None;
  risk_multiplier := None
|}.

Definition a_fill (id : string) (time : Date) (side : Side) (quantity price : num)
    : Fill num := {|
  f_id := id; f_timestamp := time; f_strategy_id := "S1"; f_symbol := "AAPL";
  f_side := side; f_quantity := quantity; f_price := price; f_venue := "NYSE";
  f_latency_ms := num_of_Z 20; f_order_id := id
|}.

Definition a_cancel (id : string) (time : Date) : Cancel num := {|
  c_id := id; c_timestamp := time; c_strategy_id := "S1"; c_symbol := "AAPL";
  c_order_id := id; c_reason := "Manual cancel"; c_latency_ms := num_of_Z 20
|}.

Definition a_reject (id : string) (time : Date) : Reject := {|
  r_id := id; r_timestamp := time; r_strategy_id := "S1"; r_symbol := "AAPL";
  r_order_id := id; r_reason := "Invalid price"; r_error_code := "E42"
|}.

Definition a_latency (time : Date) (latency : num) : LatencyMetric num := {|
  m_id := "m"; m_timestamp := time; m_strategy_id := "S1";
  m_metric_type := order_to_fill; m_latency_ms := latency;
  m_percentile_50 := None; m_percentile_95 := None; m_percentile_99 := None
|}.

(** A scenario whose projected metrics have the given profit and loss. *)
Definition a_scenario (name : string) (pnl : num) : WhatIfScenario num := {|
  s_id := [Lit name];
  s_name := [Lit name];
  s_strategy_id := "S1";
  s_parameters := noParameters;
  projected_metrics := {|
    strategy_id := "S1"; date := 19000;
    total_fills := 0; total_cancels := 0; total_rejects := 0;
    fill_rate := num_of_Z 0; cancel_rate := num_of_Z 0; reject_rate := num_of_Z 0;
    avg_latency_ms := num_of_Z 0;
    p95_latency_ms := Some (num_of_Z 0); p99_latency_ms := Some (num_of_Z 0);
    total_volume := num_of_Z 0; total_pnl := pnl |};
  created_at := 0
|}.

(** Twenty latency samples, one per second, alternately 10 ms and 11 ms,
    followed by a sample of 12.5 ms. *)
Definition steady_then_raised : list (LatencyMetric num) :=
  map (fun i => a_latency (Z.of_nat i * 1000)
                          (if Nat.even i then num_of_Z 10 else num_of_Z 11))
      (seq 0 20)
  ++ [a_latency 20000 (decimal 25 2)].

(** Two fills, in different hours. *)
Definition two_fills : list (Fill num) :=
  [a_fill "f1" 1000 buy (num_of_Z 30) (num_of_Z 2);
   a_fill "f2" 4000000 sell (num_of_Z 40) (num_of_Z 2)].

(** A sale of 1e308 units at the price 1. *)
Definition a_huge_fill : Fill num :=
  a_fill "huge" 1000 sell (num_of_Z (10 ^ 308)) (num_of_Z 1).

(** A world whose clock starts at [start] and advances one millisecond per
    reading, and whose generator always draws one half. *)
Definition a_world (start : Z) : World num := {|
  clock := fun n => (start + Z.of_nat n)%Z;
  entropy := fun _ => decimal 1 2;
  clock_reads := 0;
  entropy_draws := 0
|}.
End WithNumbers.
End Samples.

(** ** Definitions used to state the properties *)

(** The integer [z] in exact arithmetic. *)
Definition exact_of_Z (z : Z) : Qc := Q2Qc (inject_Z z).





(** The sample at position [i] of a sequence, paired with the [size] samples
    before it. *)
Definition window_at {A : Type} (size : nat) (xs : list A) (i : nat)
    : list (list A * A) :=
  match nth_error xs i with
  | Some current => [(firstn size (skipn (i - size) xs), current)]
  | None => []
  end.

(** ** Windowed series

    The shape the time-series functions share: the records are grouped by
    window in a map, each window is reduced to a value, and the points are
    sorted by timestamp. *)

Section SeriesDefinitions.
Context {num A V : Type} (key : A -> Z) (init : V) (step : A -> V -> V)
        (intervalMinutes : Z) (reduce : V -> num).



Definition point (entry : Z * V) : TimeSeriesPoint num :=
  {| timestamp := MetricsCalculator.windowStart (fst entry) intervalMinutes;
     value := reduce (snd entry) |}.

End SeriesDefinitions.

Module Stated.
Section WithNumbers.
Context {num : Type} {N : JSNumber num}.
Local Open Scope js_scope.

(** A parameter field with the value [0] removed from the object. *)
Definition unset_zero (field : option num) : option num :=
  match field with
  | Some x => if x === num_of_Z 0 then None else Some x
  | None => None
  end.

Definition without_zeros (parameters : SimulationParameters num)
    : SimulationParameters num := {|
  max_position_size := unset_zero (max_position_size parameters);
  order_timeout_ms := unset_zero (order_timeout_ms parameters);
  min_fill_rate := unset_zero (min_fill_rate parameters);
  max_latency_ms := unset_zero (max_latency_ms parameters);
  risk_multiplier := unset_zero (risk_multiplier parameters)
|}.

(** The signed quantity of a fill: bought quantities count positively, sold
    ones negatively. *)
Definition position_change (fill : Fill num) : num :=
  match f_side fill with
  | buy => f_quantity fill
  | sell => - f_quantity fill
  end.

(** The position reached from [start] once the fills [kept] are applied. *)
Definition position_from (start : num) (kept : list (Fill num)) : num :=
  fold_left (fun position fill => position + position_change fill) kept start.

(** The position-size stage as the specification words it: the same replay,
    made in timestamp order. *)
Definition replay_in_timestamp_order (fills : list (Fill num)) (maxSize : num)
    : list (Fill num) :=
  WhatIfSimulator.applyPositionSizeLimit
    (sort (fun a b => later (f_timestamp a) (f_timestamp b)) fills) maxSize.

(** A parameters object with the field [max_position_size] only. *)
Definition only_max_position_size (maxSize : num) : SimulationParameters num := {|
  max_position_size := Some maxSize;
  order_timeout_ms := None;
  min_fill_rate := None;
  max_latency_ms := None;
  risk_multiplier := None
|}.

(** What an anomaly reports: every field but the identifier and the time of
    detection, which are read from the generator and the clock. *)
Record Finding : Type := {
  found_at : Date;
  found_for : string;
  found_type : AnomalyType;
  found_severity : Severity;
  found_description : Text num;
  found_metric : num;
  found_threshold : num
}.

Definition essence (anomaly : Anomaly num) : Finding := {|
  found_at := a_timestamp anomaly;
  found_for := a_strategy_id anomaly;
  found_type := anomaly_type anomaly;
  found_severity := severity anomaly;
  found_description := description anomaly;
  found_metric := metric_value anomaly;
  found_threshold := threshold_value anomaly
|}.

(** Every sample of a sequence that has [size] samples before it, paired with
    the [size] samples immediately before it. *)
Fixpoint sliding {A : Type} (size : nat) (samples : list A) : list (list A * A) :=
  match samples with
  | [] => []
  | _ :: rest =>
      match skipn size samples with
      | [] => []
      | current :: _ => (firstn size samples, current) :: sliding size rest
      end
  end.

(** The z score as the specification words it, with the denominator
    [max(stddev, 1)]. *)
Definition zScore_by_max (windowLatencies : list num) (currentLatency : num) : num :=
  let stdDev := Math_sqrt (AnomalyDetector.variance windowLatencies) in
  (currentLatency - AnomalyDetector.mean windowLatencies)
  / Math_max stdDev (num_of_Z 1).

Definition is_spike_by_max (thresholds : AnomalyDetector.AnomalyThresholds)
    (windowLatencies : list num) (currentLatency : num) : bool :=
  (zScore_by_max windowLatencies currentLatency >? num_of_Z 3)
  || (currentLatency >? AnomalyDetector.latencySpike thresholds).

(** The test [detectLatencySpikes] makes on a sample and the samples before
    it. *)
Definition flagged (thresholds : AnomalyDetector.AnomalyThresholds)
    (pair : list (LatencyMetric num) * LatencyMetric num) : bool :=
  AnomalyDetector.is_spike thresholds (map (@m_latency_ms num) (fst pair))
                           (m_latency_ms (snd pair)).

(** What [detectLatencySpikes] reports for a sample flagged against the
    window before it. *)
Definition spike_finding (window : list (LatencyMetric num))
    (current : LatencyMetric num) : Finding :=
  let windowLatencies := map (@m_latency_ms num) window in
  let currentLatency := m_latency_ms current in
  let zScore := AnomalyDetector.zScore windowLatencies currentLatency in
  {| found_at := m_timestamp current;
     found_for := m_strategy_id current;
     found_type := latency_spike;
     found_severity :=
       if zScore <? num_of_Z 2 then low
       else if zScore <? num_of_Z 3 then medium
       else if zScore <? num_of_Z 4 then high
       else critical;
     found_description :=
       [Lit "Latency spike detected: "; Fixed 2 currentLatency; Lit "ms (";
        Fixed 2 zScore; Lit " std devs above mean)"];
     found_metric := currentLatency;
     found_threshold :=
       AnomalyDetector.mean windowLatencies
       + num_of_Z 3 * Math_sqrt (AnomalyDetector.variance windowLatencies) |}.



(** The divisor [Math.abs(x || 1)] of the Sharpe returns and of the
    drawdowns. *)
Definition guarded (x : num) : num := Math_abs (or_else x (num_of_Z 1)).
End WithNumbers.
End Stated.

(** * Properties *)

Import MetricsCalculator WhatIfSimulator AnomalyDetector Samples Stated.

(** ** Double precision at work *)

Example double_floor :
  Math_floor (JSNumber := Binary64) (decimal 7 2) = num_of_Z 3
  /\ Math_floor (JSNumber := Binary64) (decimal (-1) 2) = num_of_Z (-1)
  /\ Math_ceil (N := Binary64) (decimal 7 2) = num_of_Z 4
  /\ to_Z (N := Binary64) (decimal 7 2) = None
  /\ to_Z (N := Binary64) (num_of_Z 38) = Some 38%Z.
Proof. vm_compute. repeat split. Qed.

Example double_zero_by_zero :
  isNaN (N := Binary64) (num_div (num_of_Z 0) (num_of_Z 0)) = true
  /\ truthy (N := Binary64) (num_div (num_of_Z 0) (num_of_Z 0)) = false
  /\ truthy (N := Binary64) (num_of_Z 0) = false
  /\ truthy (N := Binary64) (num_opp (num_of_Z 0)) = false
  /\ truthy (N := Binary64) (decimal 1 2) = true.
Proof. vm_compute. repeat split. Qed.

(** ** Lists *)

Lemma filter_filter (A : Type) (f : A -> bool) (xs : list A) :
  filter f (filter f xs) = filter f xs.
Proof.
  induction xs as [| x xs IH]; simpl; [reflexivity |].
  destruct (f x) eqn:E; simpl; [rewrite E, IH |]; auto.
Qed.

(** ** The no-op pipeline *)

(** With the parameters [{}] every stage is skipped, and filtering by
    strategy a second time changes nothing. *)
Ltac skip_every_stage :=
  unfold simulateScenario, calculateStrategyMetrics, noParameters;
  cbn [given max_position_size order_timeout_ms min_fill_rate max_latency_ms
       risk_multiplier];
  unfold bind, ret, Date_now, Math_random; cbn [fst snd];
  rewrite !filter_filter; reflexivity.

(** C3.  For every strategy and every event set, [simulateScenario] called
    with the parameters [{}] returns as [projected_metrics] what
    [calculateStrategyMetrics] returns on the same event set.  The two results
    carry the date at which each was computed: they are identical when the two
    calls read the clock on the same day, and in particular when they read the
    same clock. *)
Theorem simulateScenario_without_parameters :
  forall (num : Type) (N : JSNumber num) (strategyId : string)
         (fills : list (Fill num)) (cancels : list (Cancel num))
         (rejects : list Reject) (latencyMetrics : list (LatencyMetric num))
         (w w' : World num),
    toISODate (clock w (clock_reads w)) = toISODate (clock w' (clock_reads w')) ->
    projected_metrics
      (fst (simulateScenario strategyId fills cancels rejects latencyMetrics
                             noParameters w))
    = fst (calculateStrategyMetrics strategyId fills cancels rejects
                                    latencyMetrics w').
Proof.
  intros num N strategyId fills cancels rejects latencyMetrics w w' same_day.
  transitivity (fst (calculateStrategyMetrics strategyId fills cancels rejects
                                              latencyMetrics w)).
  - skip_every_stage.
  - unfold calculateStrategyMetrics, bind, ret, Date_now. cbn [fst].
    rewrite same_day. reflexivity.
Qed.

(** A scenario computed at the start of the first of January 1970 and the
    metrics computed a minute later. *)
Lemma simulateScenario_without_parameters_witness :
  projected_metrics
    (fst (simulateScenario (N := Binary64) "S1" two_fills [a_cancel "c1" 2000] [] []
                           noParameters (a_world 0)))
  = fst (calculateStrategyMetrics "S1" two_fills [a_cancel "c1" 2000] [] []
                                  (a_world 60000)).
Proof.
  apply (simulateScenario_without_parameters
           Binary64 "S1" two_fills [a_cancel "c1" 2000] [] []
           (a_world 0) (a_world 60000)).
  reflexivity.
Defined.

(** ** Parameters set to zero *)

Lemma given_unset_zero (num : Type) (N : JSNumber num) (field : option num) :
  given (unset_zero field) = given field.
Proof.
  destruct field as [x |]; [| reflexivity].
  unfold unset_zero, given, truthy.
  destruct (num_eq x (num_of_Z 0)) eqn:E; cbn [negb andb]; [reflexivity |].
  unfold truthy. rewrite E. reflexivity.
Qed.

Lemma generateScenarioName_without_zeros
    (num : Type) (N : JSNumber num) (parameters : SimulationParameters num) :
  generateScenarioName (without_zeros parameters) = generateScenarioName parameters.
Proof.
  unfold generateScenarioName, push_if, without_zeros.
  cbn [max_position_size order_timeout_ms min_fill_rate max_latency_ms
       risk_multiplier].
  rewrite !given_unset_zero. reflexivity.
Qed.

(** C10.  A parameter field set to [0] is treated as an absent one: the
    scenario computed from a parameters object and the one computed from the
    object with its zero fields removed have the same projected metrics, name,
    identifier and creation time, and leave the clock and the generator in
    the same state; when every field is [0] or absent the name is
    "Default Scenario" and the projected metrics are those of
    [calculateStrategyMetrics], unscaled. *)
Theorem zero_parameter_is_absent :
  forall (num : Type) (N : JSNumber num) (strategyId : string)
         (fills : list (Fill num)) (cancels : list (Cancel num))
         (rejects : list Reject) (latencyMetrics : list (LatencyMetric num))
         (parameters : SimulationParameters num) (w : World num),
    let run := simulateScenario strategyId fills cancels rejects latencyMetrics in
    (projected_metrics (fst (run parameters w))
     = projected_metrics (fst (run (without_zeros parameters) w))
     /\ s_name (fst (run parameters w))
        = s_name (fst (run (without_zeros parameters) w))
     /\ s_id (fst (run parameters w)) = s_id (fst (run (without_zeros parameters) w))
     /\ created_at (fst (run parameters w))
        = created_at (fst (run (without_zeros parameters) w))
     /\ snd (run parameters w) = snd (run (without_zeros parameters) w))
    /\ (without_zeros parameters = noParameters ->
        s_name (fst (run parameters w)) = [Lit "Default Scenario"]
        /\ projected_metrics (fst (run parameters w))
           = fst (calculateStrategyMetrics strategyId fills cancels rejects
                                           latencyMetrics w)).
Proof.
  intros num N strategyId fills cancels rejects latencyMetrics parameters w run.
  assert (same :
    (projected_metrics (fst (run parameters w))
     = projected_metrics (fst (run (without_zeros parameters) w))
     /\ s_name (fst (run parameters w))
        = s_name (fst (run (without_zeros parameters) w))
     /\ s_id (fst (run parameters w)) = s_id (fst (run (without_zeros parameters) w))
     /\ created_at (fst (run parameters w))
        = created_at (fst (run (without_zeros parameters) w))
     /\ snd (run parameters w) = snd (run (without_zeros parameters) w))).
  { subst run. unfold simulateScenario.
    rewrite generateScenarioName_without_zeros.
    unfold without_zeros.
    cbn [max_position_size order_timeout_ms min_fill_rate max_latency_ms
         risk_multiplier].
    rewrite !given_unset_zero.
    destruct (given (max_position_size parameters));
      destruct (given (order_timeout_ms parameters));
      destruct (given (min_fill_rate parameters));
      destruct (given (max_latency_ms parameters));
      destruct (given (risk_multiplier parameters));
      unfold bind, ret, applyOrderTimeout, applyMaxLatency;
      repeat match goal with
             | |- context [applyMinFillRate ?a ?b ?c ?d ?v] =>
                 destruct (applyMinFillRate a b c d v) as [[[? ?] ?] ?]
             end;
      repeat split; reflexivity. }
  split; [exact same |].
  intros none. destruct same as (metrics & name & _).
  rewrite name, metrics, none. split.
  - reflexivity.
  - subst run. skip_every_stage.
Qed.

(** The object [{max_position_size: 0, min_fill_rate: 0, risk_multiplier: 0}],
    in double precision. *)
Lemma zero_parameter_is_absent_witness :
  let parameters : SimulationParameters PrimFloat.float :=
    {| max_position_size := Some (num_of_Z 0);
       order_timeout_ms := None;
       min_fill_rate := Some (num_of_Z 0);
       max_latency_ms := None;
       risk_multiplier := Some (num_of_Z 0) |} in
  let fills := [a_fill "f1" 1000 buy (num_of_Z 30) (num_of_Z 2)] in
  without_zeros parameters = noParameters
  /\ s_name (fst (simulateScenario "S1" fills [] [] [] parameters (a_world 0)))
     = [Lit "Default Scenario"].
Proof.
  intros parameters fills.
  split; [reflexivity |].
  apply (zero_parameter_is_absent Binary64 "S1" fills [] [] [] parameters (a_world 0)).
  reflexivity.
Defined.

(** ** The position-size stage *)

Section PositionSize.
Context {num : Type} {N : JSNumber num}.
Local Open Scope js_scope.

Lemma position_filter_snoc (fills : list (Fill num)) (fill : Fill num)
    (maxSize start : num) :
  position_filter start (fills ++ [fill]) maxSize
  = let kept := position_filter start fills maxSize in
    if Math_abs (position_from start kept + position_change fill) <=? maxSize
    then kept ++ [fill] else kept.
Proof.
  revert start. induction fills as [| first rest IH]; intros start.
  - cbn. unfold position_change.
    destruct (Math_abs _ <=? maxSize); reflexivity.
  - cbn [app position_filter]. fold (position_change first).
    destruct (Math_abs (start + position_change first) <=? maxSize) eqn:fits.
    + rewrite IH. cbn zeta. unfold position_from. cbn [fold_left]. clear fits.
      match goal with |- context [if ?c then _ else _] => destruct c end;
        reflexivity.
    + apply IH.
Qed.

Lemma position_filter_keeps (keep : Fill num -> bool) (fills : list (Fill num))
    (maxSize start : num) :
  filter keep fills = fills ->
  filter keep (position_filter start fills maxSize)
  = position_filter start fills maxSize.
Proof.
  revert start. induction fills as [| first rest IH]; intros start all; [reflexivity |].
  cbn [filter] in all. destruct (keep first) eqn:kept.
  - injection all as all. cbn [position_filter].
    destruct (Math_abs _ <=? maxSize); [cbn [filter]; rewrite kept; f_equal |]; auto.
  - exfalso. assert (len : length (filter keep rest) = length (first :: rest))
      by (rewrite all; reflexivity).
    pose proof (filter_length_le keep rest). cbn in len. lia.
Qed.
End PositionSize.

(** C5, as the code has it.  The position-size stage replays the fills in the
    order of the array it is given, without sorting them by timestamp.  It
    keeps a running signed position, which starts at zero; a bought quantity
    is added, a sold one subtracted.  A fill is kept if and only if applying
    it to the position reached by the fills kept before it leaves the absolute
    position within the limit.  A fill that is not kept is dropped: a scenario
    with the position limit only has the cancels and rejects of the strategy,
    unchanged in number. *)
Theorem applyPositionSizeLimit_replays_in_array_order :
  forall (num : Type) (N : JSNumber num)
         (fills : list (Fill num)) (fill : Fill num) (maxSize : num),
    applyPositionSizeLimit [] maxSize = []
    /\ applyPositionSizeLimit (fills ++ [fill]) maxSize
       = (let kept := applyPositionSizeLimit fills maxSize in
          if num_le (Math_abs (num_add (position_from (num_of_Z 0) kept)
                                       (position_change fill))) maxSize
          then kept ++ [fill] else kept)
    /\ forall (strategyId : string) (cancels : list (Cancel num))
              (rejects : list Reject) (latencyMetrics : list (LatencyMetric num))
              (w : World num),
         truthy maxSize = true ->
         let projected :=
           projected_metrics
             (fst (simulateScenario strategyId fills cancels rejects latencyMetrics
                                    (only_max_position_size maxSize) w)) in
         let of_strategy (id : string) := String.eqb id strategyId in
         total_fills projected
         = length (applyPositionSizeLimit
                     (filter (fun f => of_strategy (f_strategy_id f)) fills) maxSize)
         /\ total_cancels projected
            = length (filter (fun c => of_strategy (c_strategy_id c)) cancels)
         /\ total_rejects projected
            = length (filter (fun r => of_strategy (r_strategy_id r)) rejects).
Proof.
  intros num N fills fill maxSize. split; [reflexivity |]. split.
  - apply position_filter_snoc.
  - intros strategyId cancels rejects latencyMetrics w set projected of_strategy.
    subst projected. unfold simulateScenario, only_max_position_size.
    cbn [given max_position_size order_timeout_ms min_fill_rate max_latency_ms
         risk_multiplier].
    rewrite set. unfold bind, ret, calculateStrategyMetrics, Date_now, Math_random.
    cbn [fst snd projected_metrics total_fills total_cancels total_rejects].
    unfold applyPositionSizeLimit. rewrite position_filter_keeps, !filter_filter.
    + repeat split; reflexivity.
    + apply filter_filter.
Qed.

(** The example of the specification: with the limit 50, a buy of 30 followed
    by a buy of 40 keeps the first and drops the second. *)
Lemma applyPositionSizeLimit_replays_in_array_order_witness :
  let fills : list (Fill PrimFloat.float) :=
    [a_fill "f1" 1000 buy (num_of_Z 30) (num_of_Z 2);
     a_fill "f2" 2000 buy (num_of_Z 40) (num_of_Z 2)] in
  truthy (num := PrimFloat.float) (num_of_Z 50) = true
  /\ map (@f_id _) (applyPositionSizeLimit fills (num_of_Z 50)) = ["f1"%string]
  /\ total_cancels
       (projected_metrics
          (fst (simulateScenario "S1" fills [a_cancel "c1" 1500] [] []
                  (only_max_position_size (num_of_Z 50)) (a_world 0)))) = 1.
Proof.
  intros fills. split; [reflexivity |]. split; [reflexivity |].
  destruct (applyPositionSizeLimit_replays_in_array_order
              Binary64 fills (a_fill "f3" 3000 sell (num_of_Z 10) (num_of_Z 2))
              (num_of_Z 50)) as (_ & _ & dropped).
  destruct (dropped "S1"%string [a_cancel "c1" 1500] [] [] (a_world 0) eq_refl)
    as (_ & cancels & _).
  exact cancels.
Defined.

(** C5, as the specification words it, fails: given the later fill first, the
    code keeps the later fill (a buy of 40) and drops the earlier one (a buy
    of 30), where a replay in timestamp order keeps the earlier one and drops
    the later one. *)
Lemma applyPositionSizeLimit_not_in_timestamp_order :
  let fills : list (Fill PrimFloat.float) :=
    [a_fill "later" 2000 buy (num_of_Z 40) (num_of_Z 2);
     a_fill "earlier" 1000 buy (num_of_Z 30) (num_of_Z 2)] in
  map (@f_id _) (applyPositionSizeLimit fills (num_of_Z 50)) = ["later"%string]
  /\ map (@f_id _) (replay_in_timestamp_order fills (num_of_Z 50)) = ["earlier"%string]
  /\ applyPositionSizeLimit fills (num_of_Z 50)
     <> replay_in_timestamp_order fills (num_of_Z 50).
Proof.
  intros fills. split; [reflexivity |]. split; [reflexivity |].
  intros same. apply (f_equal (map (@f_id _))) in same.
  vm_compute in same. discriminate same.
Qed.

(** ** Exact arithmetic *)

Section ExactArithmetic.
Variable sqrt : Qc -> Qc.

Lemma exact_of_Z_add (a b : Z) :
  exact_of_Z (a + b) = (exact_of_Z a + exact_of_Z b)%Qc.
Proof.
  apply Qc_is_canon. unfold exact_of_Z, Qcplus, Q2Qc. cbn [this].
  rewrite !Qred_correct, inject_Z_plus. reflexivity.
Qed.

Lemma exact_of_Z_inj (a b : Z) : exact_of_Z a = exact_of_Z b -> a = b.
Proof.
  unfold exact_of_Z. intros e. apply (f_equal this) in e. cbn [this Q2Qc] in e.
  assert (q : inject_Z a == inject_Z b).
  { rewrite <- (Qred_correct (inject_Z a)), <- (Qred_correct (inject_Z b)), e.
    reflexivity. }
  unfold Qeq in q. cbn in q. lia.
Qed.

Lemma exact_rates_sum (a b c : nat) :
  0 < a + b + c ->
  (exact_of_Z (Z.of_nat a) / exact_of_Z (Z.of_nat (a + b + c))
   + exact_of_Z (Z.of_nat b) / exact_of_Z (Z.of_nat (a + b + c))
   + exact_of_Z (Z.of_nat c) / exact_of_Z (Z.of_nat (a + b + c)) = 1)%Qc.
Proof.
  intros positive.
  assert (nonzero : exact_of_Z (Z.of_nat (a + b + c)) <> exact_of_Z 0)
    by (intros e; apply exact_of_Z_inj in e; lia).
  rewrite !Nat2Z.inj_add, !exact_of_Z_add in *.
  change (exact_of_Z 0) with 0%Qc in nonzero. field. exact nonzero.
Qed.

Lemma exact_lt_true (a b : Qc) : Rational.ltb a b = true -> (a < b)%Qc.
Proof.
  unfold Rational.ltb. destruct (a ?= b)%Qc eqn:order; try discriminate.
  intros _. apply Qclt_alt. exact order.
Qed.

Lemma exact_lt_false (a b : Qc) : Rational.ltb a b = false -> (b <= a)%Qc.
Proof.
  unfold Rational.ltb. destruct (a ?= b)%Qc eqn:order; try discriminate; intros _.
  - apply Qceq_alt in order. subst. apply Qcle_refl.
  - apply Qcgt_alt in order. apply Qclt_le_weak. exact order.
Qed.

(** [xs.reduce((prev, curr) => score(curr) > score(prev) ? curr : prev)]
    returns an element of the array with the greatest score. *)
Lemma reduce_greatest (A : Type) (score : A -> Qc) (rest : list A) (first : A) :
  let chosen :=
    fold_left (fun prev curr =>
                 if num_gt (N := Exact sqrt) (score curr) (score prev) then curr else prev)
              rest first in
  In chosen (first :: rest)
  /\ forall x, In x (first :: rest) -> (score x <= score chosen)%Qc.
Proof.
  revert first. induction rest as [| next rest IH]; intros first; cbn zeta.
  - cbn. split; [auto |]. intros x [<- | []]. apply Qcle_refl.
  - cbn [fold_left].
    destruct (num_gt (N := Exact sqrt) (score next) (score first)) eqn:order;
      unfold num_gt in order; cbn [num_lt Exact] in order.
    + destruct (IH next) as [member greatest]. split.
      * right. exact member.
      * intros x [<- | later_one]; [| apply greatest; exact later_one].
        apply Qcle_trans with (score next);
          [apply Qclt_le_weak, exact_lt_true, order | apply greatest; left; reflexivity].
    + destruct (IH first) as [member greatest]. split.
      * destruct member as [<- | member]; [left; reflexivity | right; right; exact member].
      * intros x [<- | [<- | later_one]].
        -- apply greatest. left. reflexivity.
        -- apply Qcle_trans with (score first);
             [apply exact_lt_false, order | apply greatest; left; reflexivity].
        -- apply greatest. right. exact later_one.
Qed.

(** The same with [<]: an element with the least score. *)
Lemma reduce_least (A : Type) (score : A -> Qc) (rest : list A) (first : A) :
  let chosen :=
    fold_left (fun prev curr =>
                 if num_lt (JSNumber := Exact sqrt) (score curr) (score prev)
                 then curr else prev)
              rest first in
  In chosen (first :: rest)
  /\ forall x, In x (first :: rest) -> (score chosen <= score x)%Qc.
Proof.
  revert first. induction rest as [| next rest IH]; intros first; cbn zeta.
  - cbn. split; [auto |]. intros x [<- | []]. apply Qcle_refl.
  - cbn [fold_left].
    destruct (num_lt (JSNumber := Exact sqrt) (score next) (score first)) eqn:order;
      cbn [num_lt Exact] in order.
    + destruct (IH next) as [member least]. split.
      * right. exact member.
      * intros x [<- | later_one]; [| apply least; exact later_one].
        apply Qcle_trans with (score next);
          [apply least; left; reflexivity | apply Qclt_le_weak, exact_lt_true, order].
    + destruct (IH first) as [member least]. split.
      * destruct member as [<- | member]; [left; reflexivity | right; right; exact member].
      * intros x [<- | [<- | later_one]].
        -- apply least. left. reflexivity.
        -- apply Qcle_trans with (score first);
             [apply least; left; reflexivity | apply exact_lt_false, order].
        -- apply least. right. exact later_one.
Qed.
End ExactArithmetic.

(** ** Double precision: order and subtraction

    The order of the doubles, and the sign of a difference: for two doubles
    other than [NaN], [a - b > 0] holds exactly when [a > b]. *)

Section DoubleOrdering.
Import Floats.

Lemma SFcompare_opp (f g : spec_float) :
  SFcompare g f = option_map CompOpp (SFcompare f g).
Proof.
  destruct f as [s | s | | s m e], g as [s' | s' | | s' m' e'];
    try destruct s; try destruct s'; try reflexivity; cbn [SFcompare option_map].
  - rewrite (Z.compare_antisym e e'). destruct (e ?= e')%Z; cbn [CompOpp]; try reflexivity.
    rewrite (Pos.compare_cont_antisym m m' Eq). cbn [CompOpp].
    rewrite ?CompOpp_involutive. reflexivity.
  - rewrite (Z.compare_antisym e e'). destruct (e ?= e')%Z; cbn [CompOpp]; try reflexivity.
    rewrite (Pos.compare_cont_antisym m m' Eq). cbn [CompOpp].
    rewrite ?CompOpp_involutive. reflexivity.
Qed.

Lemma SFcompare_total (f g : spec_float) :
  SFeqb f f = true -> SFeqb g g = true -> exists c, SFcompare f g = Some c.
Proof.
  unfold SFeqb.
  destruct f as [s | s | | s m e], g as [s' | s' | | s' m' e']; cbn [SFcompare];
    intros; try discriminate; eauto.
Qed.

(** Two doubles other than [NaN] are comparable: [x <= t] fails exactly when
    [x > t] holds. *)
Lemma double_le_or_gt (x t : float) :
  isNaN (N := Binary64) x = false -> isNaN (N := Binary64) t = false ->
  num_le (N := Binary64) x t = negb (num_gt (N := Binary64) x t).
Proof.
  unfold isNaN, num_le, num_gt. cbn [num_eq num_lt Binary64].
  rewrite !eqb_spec, !ltb_spec. intros x_number t_number.
  apply negb_false_iff in x_number, t_number.
  destruct (SFcompare_total _ _ x_number t_number) as [c compared].
  unfold SFltb, SFeqb. rewrite (SFcompare_opp (Prim2SF x) (Prim2SF t)), compared.
  destruct c; reflexivity.
Qed.





Lemma SFltb_trans (f g h : spec_float) :
  SFltb f g = true -> SFltb g h = true -> SFltb f h = true.
Proof.
  unfold SFltb, SFcompare.
  destruct f as [s | s | | s m e], g as [s' | s' | | s' m' e'],
           h as [s'' | s'' | | s'' m'' e''];
    try discriminate;
    repeat match goal with b : bool |- _ => destruct b end;
    try discriminate; try reflexivity;
    rewrite !Pos.compare_cont_spec; cbn [Pos.switch_Eq];
    destruct (Z.compare_spec e e'), (Z.compare_spec e' e''), (Z.compare_spec e e'');
    subst; try lia; try discriminate; try reflexivity;
    destruct (Pos.compare_spec m m'), (Pos.compare_spec m' m''),
             (Pos.compare_spec m m''); subst; try lia; try discriminate; reflexivity.
Qed.

Lemma double_lt_trans (x y z : float) :
  PrimFloat.ltb x y = true -> PrimFloat.ltb y z = true -> PrimFloat.ltb x z = true.
Proof. rewrite !ltb_spec. apply SFltb_trans. Qed.

Lemma double_sub_self (x : float) :
  Double.finite x = true -> PrimFloat.eqb (PrimFloat.sub x x) (Double.of_Z 0) = true.
Proof.
  unfold Double.finite. intros finite.
  assert (zero : Prim2SF (Double.of_Z 0) = S754_zero false) by (vm_compute; reflexivity).
  rewrite eqb_spec, sub_spec, zero.
  destruct (Prim2SF x) as [s | s | | s m e]; try discriminate.
  - destruct s; reflexivity.
  - unfold SF64sub, SFsub. rewrite Z.min_id. unfold shl_align. rewrite Z.sub_diag.
    reflexivity.
Qed.

Lemma SFltb_irrefl (f : spec_float) : SFltb f f = false.
Proof.
  unfold SFltb, SFcompare. destruct f as [s | s | | s m e];
    try (destruct s); try reflexivity;
    rewrite Z.compare_refl, Pos.compare_cont_refl; reflexivity.
Qed.

Lemma double_lt_irrefl (x : float) : PrimFloat.ltb x x = false.
Proof. rewrite ltb_spec. apply SFltb_irrefl. Qed.

(** In double precision, [reduce] with [>] returns an element that no element
    of the array exceeds. *)
Lemma reduce_not_exceeded (A : Type) (score : A -> float) (rest seen : list A)
    (first : A) :
  (forall x, In x seen -> PrimFloat.ltb (score first) (score x) = false) ->
  let chosen :=
    fold_left (fun prev curr =>
                 if num_gt (N := Binary64) (score curr) (score prev) then curr else prev)
              rest first in
  forall x, In x (seen ++ rest) -> PrimFloat.ltb (score chosen) (score x) = false.
Proof.
  revert seen first. induction rest as [| next rest IH]; intros seen first bound; cbn zeta.
  - rewrite app_nil_r. exact bound.
  - cbn [fold_left]. intros x member.
    replace (seen ++ next :: rest) with ((seen ++ [next]) ++ rest) in member
      by (rewrite <- app_assoc; reflexivity).
    revert x member. apply IH. intros x member.
    unfold num_gt. cbn [num_lt Binary64].
    apply in_app_or in member as [member | [<- | []]].
    + destruct (PrimFloat.ltb (score first) (score next)) eqn:greater.
      * destruct (PrimFloat.ltb (score next) (score x)) eqn:above; [| reflexivity].
        pose proof (double_lt_trans greater above) as impossible.
        rewrite (bound x member) in impossible. discriminate impossible.
      * apply bound, member.
    + destruct (PrimFloat.ltb (score first) (score next)) eqn:greater.
      * apply double_lt_irrefl.
      * exact greater.
Qed.

Lemma reduce_not_undercut (A : Type) (score : A -> float) (rest seen : list A)
    (first : A) :
  (forall x, In x seen -> PrimFloat.ltb (score x) (score first) = false) ->
  let chosen :=
    fold_left (fun prev curr =>
                 if num_lt (JSNumber := Binary64) (score curr) (score prev)
                 then curr else prev)
              rest first in
  forall x, In x (seen ++ rest) -> PrimFloat.ltb (score x) (score chosen) = false.
Proof.
  revert seen first. induction rest as [| next rest IH]; intros seen first bound; cbn zeta.
  - rewrite app_nil_r. exact bound.
  - cbn [fold_left]. intros x member.
    replace (seen ++ next :: rest) with ((seen ++ [next]) ++ rest) in member
      by (rewrite <- app_assoc; reflexivity).
    revert x member. apply IH. intros x member.
    cbn [num_lt Binary64].
    apply in_app_or in member as [member | [<- | []]].
    + destruct (PrimFloat.ltb (score next) (score first)) eqn:smaller.
      * destruct (PrimFloat.ltb (score x) (score next)) eqn:below; [| reflexivity].
        pose proof (double_lt_trans below smaller) as impossible.
        rewrite (bound x member) in impossible. discriminate impossible.
      * apply bound, member.
    + destruct (PrimFloat.ltb (score next) (score first)) eqn:smaller.
      * apply double_lt_irrefl.
      * exact smaller.
Qed.
End DoubleOrdering.

Section DoubleSubtraction.
Import Floats.















End DoubleSubtraction.

(** ** Rates *)

(** C1, as the code has it.  For every input event set, with
    [totalOrders = |fills| + |cancels| + |rejects|]: when [totalOrders > 0]
    each rate field of [calculatePerformanceMetrics] is the quotient of its
    count by [totalOrders], and the three rates add up to 1 in exact
    arithmetic; when [totalOrders = 0] the three rates are 0. *)
Theorem calculatePerformanceMetrics_rates :
  (forall (num : Type) (N : JSNumber num)
          (fills : list (Fill num)) (cancels : list (Cancel num))
          (rejects : list Reject) (latencyMetrics : list (LatencyMetric num)),
      let metrics := calculatePerformanceMetrics fills cancels rejects latencyMetrics in
      let totalOrders := length fills + length cancels + length rejects in
      (0 < totalOrders ->
       fillRate metrics
       = num_div (num_of_nat (length fills)) (num_of_nat totalOrders)
       /\ cancelRate metrics
          = num_div (num_of_nat (length cancels)) (num_of_nat totalOrders)
       /\ rejectRate metrics
          = num_div (num_of_nat (length rejects)) (num_of_nat totalOrders))
      /\ (totalOrders = 0 ->
          fillRate metrics = num_of_Z 0
          /\ cancelRate metrics = num_of_Z 0
          /\ rejectRate metrics = num_of_Z 0))
  /\ (forall (sqrt : Qc -> Qc)
             (fills : list (Fill Qc)) (cancels : list (Cancel Qc))
             (rejects : list Reject) (latencyMetrics : list (LatencyMetric Qc)),
         let metrics :=
           calculatePerformanceMetrics (N := Exact sqrt)
                                       fills cancels rejects latencyMetrics in
         0 < length fills + length cancels + length rejects ->
         (fillRate metrics + cancelRate metrics + rejectRate metrics = 1)%Qc).
Proof.
  split.
  - intros num N fills cancels rejects latencyMetrics metrics totalOrders.
    subst metrics. unfold calculatePerformanceMetrics.
    cbn [fillRate cancelRate rejectRate]. fold totalOrders. split.
    + intros positive. apply Nat.ltb_lt in positive. rewrite positive. auto.
    + intros none. rewrite none. auto.
  - intros sqrt fills cancels rejects latencyMetrics metrics positive.
    subst metrics. unfold calculatePerformanceMetrics.
    cbn [fillRate cancelRate rejectRate].
    pose proof positive as test. apply Nat.ltb_lt in test. rewrite test.
    apply exact_rates_sum. exact positive.
Qed.

(** One fill, four cancels and one reject: the rates add up to 1 in exact
    arithmetic.  No orders: the rates are 0 in double precision. *)
Lemma calculatePerformanceMetrics_rates_witness :
  (let N : JSNumber Qc := Exact (fun x => x) in
   let metrics :=
     calculatePerformanceMetrics
       [a_fill "f1" 1000 buy (exact_of_Z 10) (exact_of_Z 2)]
       [a_cancel "c1" 1000; a_cancel "c2" 2000; a_cancel "c3" 3000;
        a_cancel "c4" 4000]
       [a_reject "r1" 1000] [] in
   (fillRate metrics + cancelRate metrics + rejectRate metrics = 1)%Qc)
  /\ fillRate (calculatePerformanceMetrics (N := Binary64) [] [] [] [])
     = num_of_Z 0.
Proof.
  split.
  - apply (proj2 calculatePerformanceMetrics_rates). cbn. lia.
  - apply (proj1 calculatePerformanceMetrics_rates PrimFloat.float Binary64 [] [] [] []).
    reflexivity.
Defined.

(** C1, as the specification words it, fails in double precision: with one
    fill, four cancels and one reject the three rates are 1/6, 4/6 and 1/6,
    each rounded, and their sum is 0.9999999999999999, which is below 1. *)
Lemma rates_do_not_sum_to_one_in_double_precision :
  let metrics :=
    calculatePerformanceMetrics (N := Binary64)
      [a_fill "f1" 1000 buy (num_of_Z 10) (num_of_Z 2)]
      [a_cancel "c1" 1000; a_cancel "c2" 2000; a_cancel "c3" 3000;
       a_cancel "c4" 4000]
      [a_reject "r1" 1000] [] in
  let total := num_add (num_add (fillRate metrics) (cancelRate metrics))
                       (rejectRate metrics) in
  num_eq total (num_of_Z 1) = false /\ num_lt total (num_of_Z 1) = true.
Proof.
  vm_compute. split; reflexivity.
Qed.

(** ** Comparing scenarios *)

(** The example of the specification in double precision: A with a profit of
    100 and B with 150 give B as best, A as worst, and the differences 0 and
    50. *)
Example compareScenarios_of_two :
  let A : WhatIfScenario PrimFloat.float := a_scenario "A" (num_of_Z 100) in
  let B : WhatIfScenario PrimFloat.float := a_scenario "B" (num_of_Z 150) in
  exists result,
    compareScenarios [A; B] = Returns result
    /\ best result = B /\ worst result = A
    /\ map (@pnlDiff _) (comparison result) = [num_of_Z 0; num_of_Z 50].
Proof. eexists. split; [reflexivity |]. vm_compute. repeat split. Qed.

Lemma reduce_member (A : Type) (replace : A -> A -> bool) (rest : list A) (first : A) :
  In (fold_left (fun prev curr => if replace curr prev then curr else prev) rest first)
     (first :: rest).
Proof.
  revert first. induction rest as [| next rest IH]; intros first; cbn [fold_left].
  - left. reflexivity.
  - destruct (IH (if replace next first then next else first)) as [chosen | chosen].
    + rewrite <- chosen. destruct (replace next first);
        [right; left; reflexivity | left; reflexivity].
    + right. right. exact chosen.
Qed.

Section DoubleScenarios.
Import Floats.

Lemma double_compareScenarios
    (baseline : WhatIfScenario float) (others : list (WhatIfScenario float)) :
  let scenarios := baseline :: others in
  let pnl (s : WhatIfScenario float) := total_pnl (projected_metrics s) in
  exists result,
    compareScenarios (N := Binary64) scenarios = Returns result
    /\ In (best result) scenarios
    /\ In (worst result) scenarios
    /\ comparison result
       = map (fun s =>
                {| scenario := s;
                   pnlDiff := PrimFloat.sub (pnl s) (pnl baseline);
                   fillRateDiff :=
                     PrimFloat.sub (fill_rate (projected_metrics s))
                                   (fill_rate (projected_metrics baseline));
                   latencyDiff :=
                     PrimFloat.sub (avg_latency_ms (projected_metrics s))
                                   (avg_latency_ms (projected_metrics baseline)) |})
             scenarios
    /\ ((forall s, In s scenarios -> isNaN (N := Binary64) (pnl s) = false) ->
        forall s, In s scenarios ->
                  num_le (N := Binary64) (pnl s) (pnl (best result)) = true
                  /\ num_le (N := Binary64) (pnl (worst result)) (pnl s) = true)
    /\ (Double.finite (pnl baseline) = true ->
        exists entry rest,
          comparison result = entry :: rest
          /\ scenario entry = baseline
          /\ num_eq (JSNumber := Binary64) (pnlDiff entry) (num_of_Z 0) = true).
Proof.
  intros scenarios pnl. eexists. split; [reflexivity |].
  cbn [best worst comparison].
  split; [apply reduce_member with (replace := fun curr prev => num_gt (pnl curr) (pnl prev)) |].
  split; [apply reduce_member with (replace := fun curr prev => num_lt (pnl curr) (pnl prev)) |].
  split; [reflexivity |]. split.
  - intros numbers s member.
    assert (chosen_best : In (fold_left
                                (fun prev curr =>
                                   if num_gt (N := Binary64) (pnl curr) (pnl prev)
                                   then curr else prev) others baseline) scenarios)
      by apply reduce_member with (replace := fun curr prev => num_gt (pnl curr) (pnl prev)).
    assert (chosen_worst : In (fold_left
                                 (fun prev curr =>
                                    if num_lt (JSNumber := Binary64) (pnl curr) (pnl prev)
                                    then curr else prev) others baseline) scenarios)
      by apply reduce_member with (replace := fun curr prev => num_lt (pnl curr) (pnl prev)).
    split.
    + rewrite double_le_or_gt by (apply numbers; assumption).
      unfold num_gt. cbn [num_lt Binary64]. apply negb_true_iff.
      apply (reduce_not_exceeded pnl others [baseline] baseline).
      * intros x [<- | []]. apply double_lt_irrefl.
      * exact member.
    + rewrite double_le_or_gt by (apply numbers; assumption).
      unfold num_gt. cbn [num_lt Binary64]. apply negb_true_iff.
      apply (reduce_not_undercut pnl others [baseline] baseline).
      * intros x [<- | []]. apply double_lt_irrefl.
      * exact member.
  - intros finite. subst scenarios. cbn [map].
    eexists. eexists. split; [reflexivity |]. cbn [scenario pnlDiff]. split; [reflexivity |].
    apply double_sub_self, finite.
Qed.
End DoubleScenarios.

(** C4, as the code has it.  [compareScenarios] throws if and only if the
    list of scenarios is empty.  On a list that is not empty it returns as
    [best] and [worst] scenarios of the list, and as [comparison] one entry
    per scenario, in order, with the differences of [total_pnl], [fill_rate]
    and [avg_latency_ms] against the first scenario.  In double precision,
    when no [total_pnl] is [NaN], the [total_pnl] of [best] is the greatest
    and that of [worst] the least; and when the [total_pnl] of the first
    scenario is finite, the first entry has [pnlDiff] equal to 0.  In exact
    arithmetic both hold of every list. *)
Theorem compareScenarios_contract :
  (forall (num : Type) (N : JSNumber num) (scenarios : list (WhatIfScenario num)),
      (exists message, compareScenarios scenarios = Throws message)
      <-> scenarios = [])
  /\ (forall (baseline : WhatIfScenario PrimFloat.float)
             (others : list (WhatIfScenario PrimFloat.float)),
         let scenarios := baseline :: others in
         let pnl (s : WhatIfScenario PrimFloat.float) :=
           total_pnl (projected_metrics s) in
         exists result,
           compareScenarios (N := Binary64) scenarios = Returns result
           /\ In (best result) scenarios
           /\ In (worst result) scenarios
           /\ comparison result
              = map (fun s =>
                       {| scenario := s;
                          pnlDiff := PrimFloat.sub (pnl s) (pnl baseline);
                          fillRateDiff :=
                            PrimFloat.sub (fill_rate (projected_metrics s))
                                          (fill_rate (projected_metrics baseline));
                          latencyDiff :=
                            PrimFloat.sub
                              (avg_latency_ms (projected_metrics s))
                              (avg_latency_ms (projected_metrics baseline)) |})
                    scenarios
           /\ ((forall s, In s scenarios -> isNaN (N := Binary64) (pnl s) = false) ->
               forall s, In s scenarios ->
                         num_le (N := Binary64) (pnl s) (pnl (best result)) = true
                         /\ num_le (N := Binary64) (pnl (worst result)) (pnl s) = true)
           /\ (Double.finite (pnl baseline) = true ->
               exists entry rest,
                 comparison result = entry :: rest
                 /\ scenario entry = baseline
                 /\ num_eq (JSNumber := Binary64) (pnlDiff entry) (num_of_Z 0) = true))
  /\ (forall (sqrt : Qc -> Qc) (baseline : WhatIfScenario Qc)
             (others : list (WhatIfScenario Qc)),
         let N : JSNumber Qc := Exact sqrt in
         let scenarios := baseline :: others in
         let pnl (s : WhatIfScenario Qc) := total_pnl (projected_metrics s) in
         exists result,
           compareScenarios scenarios = Returns result
           /\ In (best result) scenarios
           /\ (forall s, In s scenarios -> (pnl s <= pnl (best result))%Qc)
           /\ In (worst result) scenarios
           /\ (forall s, In s scenarios -> (pnl (worst result) <= pnl s)%Qc)
           /\ comparison result
              = map (fun s =>
                       {| scenario := s;
                          pnlDiff := (pnl s - pnl baseline)%Qc;
                          fillRateDiff :=
                            (fill_rate (projected_metrics s)
                             - fill_rate (projected_metrics baseline))%Qc;
                          latencyDiff :=
                            (avg_latency_ms (projected_metrics s)
                             - avg_latency_ms (projected_metrics baseline))%Qc |})
                    scenarios
           /\ exists entry rest,
                comparison result = entry :: rest
                /\ scenario entry = baseline /\ pnlDiff entry = 0%Qc).
Proof.
  split; [| split].
  - intros num N scenarios. split.
    + intros [message thrown]. destruct scenarios; [reflexivity | discriminate].
    + intros ->. eexists. reflexivity.
  - exact double_compareScenarios.
  - intros sqrt baseline others N scenarios pnl.
    eexists. split; [reflexivity |]. cbn [best worst comparison].
    destruct (reduce_greatest sqrt pnl others baseline) as [best_in best_max].
    destruct (reduce_least sqrt pnl others baseline) as [worst_in worst_min].
    repeat split; try assumption.
    eexists _, _. split; [reflexivity |]. cbn. split; [reflexivity |].
    apply Qcplus_opp_r.
Qed.

(** The example of the specification in double precision: A with a profit of
    100, B with 150. *)
Lemma compareScenarios_contract_witness :
  let A : WhatIfScenario PrimFloat.float := a_scenario "A" (num_of_Z 100) in
  let B : WhatIfScenario PrimFloat.float := a_scenario "B" (num_of_Z 150) in
  let pnl (s : WhatIfScenario PrimFloat.float) := total_pnl (projected_metrics s) in
  compareScenarios ([] : list (WhatIfScenario PrimFloat.float))
  = Throws "No scenarios to compare"
  /\ (forall s, In s [A; B] -> isNaN (pnl s) = false)
  /\ Double.finite (pnl A) = true
  /\ exists result,
       compareScenarios [A; B] = Returns result
       /\ num_le (pnl A) (pnl (best result)) = true
       /\ num_le (pnl (worst result)) (pnl B) = true
       /\ exists entry rest,
            comparison result = entry :: rest
            /\ scenario entry = A
            /\ num_eq (pnlDiff entry) (num_of_Z 0) = true.
Proof.
  intros A B pnl.
  assert (numbers : forall s, In s [A; B] -> isNaN (pnl s) = false).
  { intros s [<- | [<- | []]]; vm_compute; reflexivity. }
  assert (finite : Double.finite (pnl A) = true) by (vm_compute; reflexivity).
  destruct (proj1 (proj2 compareScenarios_contract) A [B])
    as (result & returned & _ & _ & _ & extremes & zero).
  split; [reflexivity |]. split; [exact numbers |]. split; [exact finite |].
  exists result. split; [exact returned |].
  split; [apply (extremes numbers A); left; reflexivity |].
  split; [apply (extremes numbers B); right; left; reflexivity |].
  exact (zero finite).
Defined.

(** A [total_pnl] that is [NaN] or infinite.  The sale and the purchase of
    [1e308] units at the price 10 give the profits [Infinity] and
    [-Infinity], whose sum is [NaN].  With this scenario first, and B with a
    profit of 150 and C with 100 after it, [best] and [worst] are both the
    first scenario, though the [total_pnl] of B is above that of C, and every
    [pnlDiff] is [NaN].  With the sale alone the [total_pnl] of the first
    scenario is [Infinity] and the first [pnlDiff] is [NaN], not 0. *)
Lemma compareScenarios_with_undefined_total_pnl :
  let huge : PrimFloat.float := num_of_Z (10 ^ 308) in
  let sale := a_fill "f1" 1000 sell huge (num_of_Z 10) in
  let purchase := a_fill "f2" 2000 buy huge (num_of_Z 10) in
  let simulated fills :=
    fst (simulateScenario (N := Binary64) "S1" fills [] [] [] noParameters
                          (a_world 0)) in
  let U := simulated [sale; purchase] in
  let I := simulated [sale] in
  let B : WhatIfScenario PrimFloat.float := a_scenario "B" (num_of_Z 150) in
  let C : WhatIfScenario PrimFloat.float := a_scenario "C" (num_of_Z 100) in
  let pnl (s : WhatIfScenario PrimFloat.float) := total_pnl (projected_metrics s) in
  (isNaN (pnl U) = true
   /\ exists result,
        compareScenarios [U; B; C] = Returns result
        /\ best result = U /\ worst result = U
        /\ num_gt (pnl B) (pnl C) = true
        /\ num_le (pnl B) (pnl (best result)) = false
        /\ num_le (pnl (worst result)) (pnl C) = false
        /\ map (fun entry => isNaN (pnlDiff entry)) (comparison result)
           = [true; true; true]
        /\ map (fun entry => num_eq (pnlDiff entry) (num_of_Z 0))
               (comparison result)
           = [false; false; false])
  /\ (Double.finite (pnl I) = false /\ isNaN (pnl I) = false
      /\ exists result,
           compareScenarios [I; B] = Returns result
           /\ best result = I /\ worst result = B
           /\ map (fun entry => num_eq (pnlDiff entry) (num_of_Z 0))
                  (comparison result)
              = [false; false]).
Proof.
  cbv zeta. split.
  - split; [vm_compute; reflexivity |].
    eexists. split; [reflexivity |]. vm_compute. repeat split.
  - split; [vm_compute; reflexivity |]. split; [vm_compute; reflexivity |].
    eexists. split; [reflexivity |]. vm_compute. repeat split.
Qed.


(** ** Sorting *)

Section Sorting.
Context {A : Type} (after : A -> A -> bool).

Lemma insert_perm (x : A) (xs : list A) : Permutation (insert after x xs) (x :: xs).
Proof.
  induction xs as [| y ys IH]; cbn; [reflexivity |].
  destruct (after x y); [| reflexivity].
  rewrite IH. apply perm_swap.
Qed.

Lemma sort_perm (xs : list A) : Permutation (sort after xs) xs.
Proof.
  induction xs as [| x xs IH]; cbn; [reflexivity |].
  fold (sort after xs). rewrite insert_perm, IH. reflexivity.
Qed.

Lemma sort_length (xs : list A) : length (sort after xs) = length xs.
Proof. apply Permutation_length, sort_perm. Qed.

Variable le : A -> A -> Prop.
Hypothesis le_trans : forall a b c, le a b -> le b c -> le a c.
Hypothesis not_after : forall a b, after a b = false -> le a b.
Hypothesis is_after : forall a b, after a b = true -> le b a.

Lemma insert_sorted (x : A) (xs : list A) :
  StronglySorted le xs -> StronglySorted le (insert after x xs).
Proof.
  induction 1 as [| y ys sorted IH smallest]; cbn.
  - repeat constructor.
  - destruct (after x y) eqn:order.
    + constructor; [exact IH |].
      apply Forall_forall. intros z member.
      apply (Permutation_in _ (insert_perm x ys)) in member.
      destruct member as [<- | member]; [apply is_after, order |].
      rewrite Forall_forall in smallest. apply smallest, member.
    + constructor; [constructor; assumption |].
      constructor; [apply not_after, order |].
      apply Forall_forall. intros z member.
      rewrite Forall_forall in smallest.
      apply le_trans with y; [apply not_after, order | apply smallest, member].
Qed.

Lemma sort_sorted (xs : list A) : StronglySorted le (sort after xs).
Proof.
  induction xs as [| x xs IH]; cbn; [constructor |].
  apply insert_sorted, IH.
Qed.
End Sorting.


(** ** Latency percentiles *)

Section ExactPercentiles.
Variable sqrt : Qc -> Qc.

Lemma exact_eq_refl (a : Qc) : Qc_eq_bool a a = true.
Proof. unfold Qc_eq_bool. destruct (Qc_eq_dec a a); congruence. Qed.












End ExactPercentiles.

(** In double precision: forty samples of 61 ms to 100 ms, given in
    descending order, have the percentiles 81, 99 and 100. *)
Example latency_percentiles_of_forty_samples :
  let stats :=
    calculateLatencyPercentiles (N := Binary64)
      (map (fun i => a_latency (Z.of_nat i * 1000) (num_of_nat (100 - i))) (seq 0 40)) in
  p50 stats = Some (num_of_Z 81) /\ p95 stats = Some (num_of_Z 99)
  /\ p99 stats = Some (num_of_Z 100).
Proof. vm_compute. repeat split. Qed.


Section SortingAmong.
Context {A : Type} (after : A -> A -> bool) (le : A -> A -> Prop) (among : A -> Prop).
Hypothesis le_trans :
  forall a b c, among a -> among b -> among c -> le a b -> le b c -> le a c.
Hypothesis not_after : forall a b, among a -> among b -> after a b = false -> le a b.
Hypothesis is_after : forall a b, among a -> among b -> after a b = true -> le b a.


End SortingAmong.






Section DoublePercentiles.
Import Floats.

End DoublePercentiles.





(** ** Effects *)

Section Collecting.
Context {num A : Type}.

Lemma collect_nil (body : A -> Eff num (list (Anomaly num))) (w : World num) :
  collect body [] w = ([], w).
Proof. reflexivity. Qed.

Lemma collect_cons (body : A -> Eff num (list (Anomaly num))) (x : A) (xs : list A)
    (w : World num) :
  collect body (x :: xs) w
  = (fst (body x w) ++ fst (collect body xs (snd (body x w))),
     snd (collect body xs (snd (body x w)))).
Proof.
  unfold collect, bind, ret. cbn [mapM]. unfold bind, ret.
  destruct (body x w) as [found w1]. cbn [fst snd].
  destruct (mapM body xs w1) as [rest w2]. reflexivity.
Qed.

(** A loop whose body reports findings that do not depend on the world
    reports findings that do not depend on the world. *)
Lemma collect_findings (body : A -> Eff num (list (Anomaly num)))
    (findings : A -> list (@Finding num)) (xs : list A) :
  (forall x w, In x xs -> map (@essence num) (fst (body x w)) = findings x) ->
  forall w, map (@essence num) (fst (collect body xs w)) = flat_map findings xs.
Proof.
  induction xs as [| x xs IH]; intros pure w; [reflexivity |].
  rewrite collect_cons. cbn [fst flat_map]. rewrite map_app.
  rewrite pure by (left; reflexivity).
  rewrite IH; [reflexivity |].
  intros y v member. apply pure. right. exact member.
Qed.
End Collecting.

Lemma essence_report (num : Type) (prefix : string) (time : Date) (strategyId : string)
    (type : AnomalyType) (level : Severity) (text : Text num) (metric threshold : num)
    (w : World num) :
  map (@essence num)
      (fst ((anomaly <- report prefix time strategyId type level text metric threshold ;;
             ret [anomaly]) w))
  = [{| found_at := time; found_for := strategyId; found_type := type;
        found_severity := level; found_description := text;
        found_metric := metric; found_threshold := threshold |}].
Proof. reflexivity. Qed.

Lemma flat_map_same (A B : Type) (f g : A -> list B) (xs : list A) :
  (forall x, In x xs -> f x = g x) -> flat_map f xs = flat_map g xs.
Proof.
  induction xs as [| x xs IH]; intros same; [reflexivity |].
  cbn [flat_map]. rewrite same by (left; reflexivity).
  rewrite IH; [reflexivity |]. intros y member. apply same. right. exact member.
Qed.

Lemma flat_map_of_map (A B C : Type) (f : B -> list C) (g : A -> B) (xs : list A) :
  flat_map f (map g xs) = flat_map (fun x => f (g x)) xs.
Proof.
  induction xs as [| x xs IH]; cbn; [reflexivity |]. rewrite IH. reflexivity.
Qed.

(** ** Windows of a sequence *)

Section Windows.
Context {A : Type}.

Lemma slice_window (xs : list A) (size i : nat) :
  size <= i -> i <= length xs ->
  slice xs (Fin (Z.of_nat i - Z.of_nat size)) (Fin (Z.of_nat i))
  = firstn size (skipn (i - size) xs).
Proof.
  intros enough inside. unfold slice, relative_index.
  destruct (Z.ltb_spec (Z.of_nat i - Z.of_nat size) 0); [lia |].
  destruct (Z.ltb_spec (Z.of_nat i) 0); [lia |].
  replace (Z.to_nat (Z.of_nat i - Z.of_nat size)) with (i - size) by lia.
  rewrite Nat2Z.id, !Nat.min_l by lia.
  f_equal. lia.
Qed.

Lemma window_at_tail (size : nat) (x : A) (rest : list A) (i : nat) :
  size <= i -> window_at size (x :: rest) (S i) = window_at size rest i.
Proof.
  intros enough. unfold window_at. cbn [nth_error].
  replace (S i - size) with (S (i - size)) by lia. reflexivity.
Qed.

Lemma sliding_by_position (size : nat) (xs : list A) :
  sliding size xs = flat_map (window_at size xs) (seq size (length xs - size)).
Proof.
  induction xs as [| x rest IH]; [reflexivity |].
  cbn [sliding]. pose proof (hd_error_skipn size (x :: rest)) as head.
  destruct (Nat.le_gt_cases size (length rest)) as [enough | short].
  - replace (length (x :: rest) - size) with (S (length rest - size)) by (cbn [length]; lia).
    cbn [seq flat_map]. unfold window_at at 1.
    rewrite Nat.sub_diag. cbn [skipn].
    destruct (skipn size (x :: rest)) as [| current after] eqn:tail.
    + apply (f_equal (@length A)) in tail. rewrite length_skipn in tail.
      cbn [length] in tail. lia.
    + cbn [hd_error] in head. rewrite <- head. cbn [app]. f_equal.
      rewrite IH, <- seq_shift, flat_map_of_map.
      apply flat_map_same. intros i member. apply in_seq in member.
      symmetry. apply window_at_tail. lia.
  - replace (length (x :: rest) - size) with 0 by (cbn [length]; lia).
    rewrite skipn_all2 by (cbn [length]; lia). reflexivity.
Qed.
End Windows.

Lemma flat_map_flat_map (A B C : Type) (f : B -> list C) (g : A -> list B) (xs : list A) :
  flat_map f (flat_map g xs) = flat_map (fun x => flat_map f (g x)) xs.
Proof.
  induction xs as [| x xs IH]; cbn; [reflexivity |].
  rewrite flat_map_app, IH. reflexivity.
Qed.

Lemma map_filter_flat_map (A B : Type) (f : A -> B) (keep : A -> bool) (xs : list A) :
  map f (filter keep xs) = flat_map (fun x => if keep x then [f x] else []) xs.
Proof.
  induction xs as [| x xs IH]; cbn; [reflexivity |].
  destruct (keep x); cbn; rewrite IH; reflexivity.
Qed.

(** ** Latency spikes *)

Section LatencySpikes.
Context {num : Type} {N : JSNumber num} (thresholds : AnomalyThresholds (num := num)).

Lemma inspect_latency_findings (sortedMetrics : list (LatencyMetric num))
    (windowSize i : nat) (w : World num) :
  windowSize <= i -> i <= length sortedMetrics ->
  map (@essence num) (fst (inspect_latency thresholds sortedMetrics windowSize i w))
  = flat_map (fun pair => if flagged thresholds pair
                          then [spike_finding (fst pair) (snd pair)] else [])
             (window_at windowSize sortedMetrics i).
Proof.
  intros enough inside. unfold inspect_latency, window_at, window_before.
  rewrite slice_window by assumption.
  destruct (nth_error sortedMetrics i) as [current |]; [| reflexivity].
  cbn [flat_map app]. unfold flagged. cbn [fst snd]. rewrite app_nil_r.
  destruct (is_spike _ _ _); [| reflexivity].
  rewrite essence_report. reflexivity.
Qed.

Lemma detectLatencySpikes_by_window (metrics : list (LatencyMetric num))
    (windowSize : nat) (w : World num) :
  windowSize <= length metrics ->
  map (@essence num) (fst (detectLatencySpikes thresholds metrics windowSize w))
  = map (fun pair => spike_finding (fst pair) (snd pair))
        (filter (flagged thresholds)
                (sliding windowSize
                   (sort (fun a b => later (m_timestamp a) (m_timestamp b)) metrics))).
Proof.
  intros enough. unfold detectLatencySpikes.
  destruct (Nat.ltb_spec (length metrics) windowSize); [lia |].
  set (sortedMetrics := sort _ metrics).
  rewrite map_filter_flat_map, sliding_by_position, flat_map_flat_map.
  apply collect_findings. intros i v member. apply in_seq in member.
  apply inspect_latency_findings; lia.
Qed.
End LatencySpikes.

Lemma later_sorts_by_time (A : Type) (time : A -> Date) (xs : list A) :
  StronglySorted (fun a b => (time a <= time b)%Z)
                 (sort (fun a b => later (time a) (time b)) xs).
Proof.
  apply sort_sorted.
  - intros a b c. apply Z.le_trans.
  - intros a b. unfold later. destruct (Z.ltb_spec 0 (time a - time b)); [discriminate | lia].
  - intros a b. unfold later. destruct (Z.ltb_spec 0 (time a - time b)); [lia | discriminate].
Qed.

(** C6, as the code has it.  [detectLatencySpikes] returns no anomalies when
    fewer than [windowSize] samples are given.  Otherwise it sorts the samples
    by timestamp and reports, in order, one anomaly for each sample that has
    [windowSize] samples before it and is flagged against them.  A sample is
    flagged if and only if [z > 3] or its latency exceeds the [latencySpike]
    threshold, where [z = (current - mean) / (stdDev || 1)] over the
    [windowSize] samples before it: the denominator is [stdDev] itself unless
    [stdDev] is [0] or [NaN], and [1] then.  The severity is [low] below 2,
    [medium] below 3, [high] below 4 and [critical] from 4. *)
Theorem detectLatencySpikes_contract :
  forall (num : Type) (N : JSNumber num)
         (thresholds : AnomalyThresholds (num := num))
         (metrics : list (LatencyMetric num)) (windowSize : nat) (w : World num),
    let sortedMetrics :=
      sort (fun a b => later (m_timestamp a) (m_timestamp b)) metrics in
    (length metrics < windowSize ->
     fst (detectLatencySpikes thresholds metrics windowSize w) = [])
    /\ (windowSize <= length metrics ->
        map (@essence num) (fst (detectLatencySpikes thresholds metrics windowSize w))
        = map (fun pair => spike_finding (fst pair) (snd pair))
              (filter (flagged thresholds) (sliding windowSize sortedMetrics)))
    /\ Permutation sortedMetrics metrics
    /\ StronglySorted (fun a b => (m_timestamp a <= m_timestamp b)%Z) sortedMetrics
    /\ (forall (windowLatencies : list num) (currentLatency : num),
          is_spike thresholds windowLatencies currentLatency
          = (num_gt (zScore windowLatencies currentLatency) (num_of_Z 3)
             || num_gt currentLatency (latencySpike thresholds))%bool)
    /\ (forall (windowLatencies : list num) (currentLatency : num),
          zScore windowLatencies currentLatency
          = num_div (num_sub currentLatency (mean windowLatencies))
                    (let stdDev := Math_sqrt (variance windowLatencies) in
                     if truthy stdDev then stdDev else num_of_Z 1)).
Proof.
  intros num N thresholds metrics windowSize w sortedMetrics.
  split; [| split; [| split; [| split; [| split]]]].
  - intros few. unfold detectLatencySpikes.
    apply Nat.ltb_lt in few. rewrite few. reflexivity.
  - apply detectLatencySpikes_by_window.
  - apply sort_perm.
  - apply later_sorts_by_time.
  - reflexivity.
  - reflexivity.
Qed.

(** In double precision: three samples are too few for a window of 20; and in
    [steady_then_raised] the last sample, the only one with 20 samples before
    it, is reported, with the severity [critical]. *)
Lemma detectLatencySpikes_contract_witness :
  let few : list (LatencyMetric PrimFloat.float) :=
    [a_latency 1000 (num_of_Z 10); a_latency 2000 (num_of_Z 300);
     a_latency 3000 (num_of_Z 10)] in
  fst (detectLatencySpikes DEFAULT_THRESHOLDS few 20 (a_world 0)) = []
  /\ map (@found_severity _)
         (map (@essence _)
              (fst (detectLatencySpikes (N := Binary64) DEFAULT_THRESHOLDS
                                        steady_then_raised 20 (a_world 0))))
     = [critical].
Proof.
  intros few. split.
  - apply (detectLatencySpikes_contract Binary64 DEFAULT_THRESHOLDS few 20 (a_world 0)).
    cbn. lia.
  - rewrite (proj1 (proj2 (detectLatencySpikes_contract
                             Binary64 DEFAULT_THRESHOLDS steady_then_raised 20
                             (a_world 0)))) by (cbn; lia).
    reflexivity.
Defined.

(** C6, as the specification words it, fails.  In [steady_then_raised] the
    20 samples before the last have mean 10.5 and standard deviation 0.5, and
    the last sample is 12.5 ms, below the threshold of 150 ms.  With the
    denominator [max(stdDev, 1)] its z score is 2 and it is not flagged; the
    code divides by 0.5, finds the z score 4 and reports the sample. *)
Lemma latency_spike_divides_by_small_deviation :
  let windowLatencies : list PrimFloat.float :=
    map (@m_latency_ms _) (firstn 20 steady_then_raised) in
  let currentLatency : PrimFloat.float := decimal 25 2 in
  Math_sqrt (variance windowLatencies) = decimal 1 2
  /\ zScore_by_max windowLatencies currentLatency = num_of_Z 2
  /\ is_spike_by_max DEFAULT_THRESHOLDS windowLatencies currentLatency = false
  /\ zScore windowLatencies currentLatency = num_of_Z 4
  /\ map (fun anomaly => (metric_value anomaly, severity anomaly))
         (fst (detectLatencySpikes DEFAULT_THRESHOLDS steady_then_raised 20 (a_world 0)))
     = [(currentLatency, critical)].
Proof.
  vm_compute. repeat split.
Qed.

(** ** Detection and the world *)

Section Determinism.
Context {num : Type} {N : JSNumber num} (thresholds : AnomalyThresholds (num := num)).

(** The findings of a loop do not depend on the world when those of its body
    do not. *)
Lemma collect_independent (A : Type) (body : A -> Eff num (list (Anomaly num)))
    (xs : list A) :
  (forall x w w', In x xs ->
     map (@essence num) (fst (body x w)) = map (@essence num) (fst (body x w'))) ->
  forall w w',
    map (@essence num) (fst (collect body xs w))
    = map (@essence num) (fst (collect body xs w')).
Proof.
  intros same w w'.
  rewrite (collect_findings body (fun x => map (@essence num) (fst (body x w))) xs)
    by (intros x v member; apply same, member).
  rewrite (collect_findings body (fun x => map (@essence num) (fst (body x w))) xs)
    by (intros x v member; apply same, member).
  reflexivity.
Qed.

Ltac branches :=
  repeat match goal with
         | |- context [if ?c then _ else _] => destruct c
         | |- context [match ?c with Some _ => _ | None => _ end] => destruct c
         end;
  reflexivity.

Lemma detectLatencySpikes_independent (metrics : list (LatencyMetric num))
    (windowSize : nat) (w w' : World num) :
  map (@essence num) (fst (detectLatencySpikes thresholds metrics windowSize w))
  = map (@essence num) (fst (detectLatencySpikes thresholds metrics windowSize w')).
Proof.
  unfold detectLatencySpikes. destruct (length metrics <? windowSize); [reflexivity |].
  apply collect_independent. intros i v v' _. unfold inspect_latency. branches.
Qed.

Lemma detectHighRejectRate_independent
    (fills : list (Fill num)) (cancels : list (Cancel num)) (rejects : list Reject)
    (windowMinutes : Z) (w w' : World num) :
  map (@essence num)
      (fst (detectHighRejectRate thresholds fills cancels rejects windowMinutes w))
  = map (@essence num)
        (fst (detectHighRejectRate thresholds fills cancels rejects windowMinutes w')).
Proof.
  unfold detectHighRejectRate.
  apply collect_independent. intros strategy v v' _.
  apply collect_independent. intros window u u' _.
  unfold inspect_rejects. branches.
Qed.

Lemma detectUnusualVolume_independent
    (fills : list (Fill num)) (windowMinutes : Z) (w w' : World num) :
  map (@essence num) (fst (detectUnusualVolume thresholds fills windowMinutes w))
  = map (@essence num) (fst (detectUnusualVolume thresholds fills windowMinutes w')).
Proof.
  unfold detectUnusualVolume.
  apply collect_independent. intros strategy v v' _.
  unfold inspect_volume. destruct (length _ <? 5); [reflexivity |].
  apply collect_independent. intros window u u' _. branches.
Qed.

Lemma detectFillRateDrop_independent
    (fills : list (Fill num)) (cancels : list (Cancel num)) (rejects : list Reject)
    (windowMinutes : Z) (w w' : World num) :
  map (@essence num)
      (fst (detectFillRateDrop thresholds fills cancels rejects windowMinutes w))
  = map (@essence num)
        (fst (detectFillRateDrop thresholds fills cancels rejects windowMinutes w')).
Proof.
  unfold detectFillRateDrop.
  apply collect_independent. intros strategy v v' _.
  unfold inspect_fill_rate. destruct (length _ <? 5); [reflexivity |].
  apply collect_independent. intros window u u' _. branches.
Qed.
End Determinism.

Lemma map_insert (A B : Type) (f : A -> B) (after : A -> A -> bool)
    (after' : B -> B -> bool) (x : A) (xs : list A) :
  (forall a b, after a b = after' (f a) (f b)) ->
  map f (insert after x xs) = insert after' (f x) (map f xs).
Proof.
  intros same. induction xs as [| y ys IH]; cbn; [reflexivity |].
  rewrite <- same. destruct (after x y); cbn; [rewrite IH |]; reflexivity.
Qed.

Lemma map_sort (A B : Type) (f : A -> B) (after : A -> A -> bool)
    (after' : B -> B -> bool) (xs : list A) :
  (forall a b, after a b = after' (f a) (f b)) ->
  map f (sort after xs) = sort after' (map f xs).
Proof.
  intros same. induction xs as [| x xs IH]; cbn; [reflexivity |].
  fold (sort after xs) (sort after' (map f xs)).
  rewrite (map_insert _ _ _ _ _ same), IH. reflexivity.
Qed.

(** C7, as the code has it.  Two calls of [detectAll] on identical input
    event sets, whatever the clock and the random generator give each of
    them, yield anomaly lists of the same length that agree, record by
    record, on timestamp, strategy, type, severity, description, metric value
    and threshold value, in the same order, which is descending by timestamp.
    The identifier and the time of detection of a record are read from the
    clock and the generator. *)
Theorem detectAll_deterministic_findings :
  forall (num : Type) (N : JSNumber num)
         (thresholds : AnomalyThresholds (num := num))
         (fills : list (Fill num)) (cancels : list (Cancel num))
         (rejects : list Reject) (latencyMetrics : list (LatencyMetric num))
         (w w' : World num),
    let detect := detectAll thresholds fills cancels rejects latencyMetrics in
    map (@essence num) (fst (detect w)) = map (@essence num) (fst (detect w'))
    /\ StronglySorted (fun a b => (a_timestamp b <= a_timestamp a)%Z) (fst (detect w)).
Proof.
  intros num N thresholds fills cancels rejects latencyMetrics w w' detect.
  assert (shape : forall v,
    exists v1 v2 v3,
      fst (detect v)
      = sort (fun a b => later (a_timestamp b) (a_timestamp a))
             (fst (detectLatencySpikes thresholds latencyMetrics 20 v)
              ++ fst (detectHighRejectRate thresholds fills cancels rejects 60 v1)
              ++ fst (detectUnusualVolume thresholds fills 60 v2)
              ++ fst (detectFillRateDrop thresholds fills cancels rejects 60 v3))).
  { intros v. subst detect. unfold detectAll, bind, ret.
    destruct (detectLatencySpikes thresholds latencyMetrics 20 v) as [l1 v1].
    destruct (detectHighRejectRate thresholds fills cancels rejects 60 v1) as [l2 v2] eqn:e2.
    destruct (detectUnusualVolume thresholds fills 60 v2) as [l3 v3] eqn:e3.
    destruct (detectFillRateDrop thresholds fills cancels rejects 60 v3) as [l4 v4] eqn:e4.
    exists v1, v2, v3. rewrite e2, e3, e4. reflexivity. }
  split.
  - destruct (shape w) as (v1 & v2 & v3 & ->).
    destruct (shape w') as (v1' & v2' & v3' & ->).
    rewrite !(map_sort (@essence num) _
                (fun a b => later (found_at b) (found_at a)))
      by reflexivity.
    rewrite !map_app.
    rewrite (detectLatencySpikes_independent thresholds latencyMetrics 20 w w'),
      (detectHighRejectRate_independent thresholds fills cancels rejects 60 v1 v1'),
      (detectUnusualVolume_independent thresholds fills 60 v2 v2'),
      (detectFillRateDrop_independent thresholds fills cancels rejects 60 v3 v3').
    reflexivity.
  - destruct (shape w) as (v1 & v2 & v3 & ->).
    apply sort_sorted.
    + intros a b c first second. lia.
    + intros a b. unfold later.
      destruct (Z.ltb_spec 0 (a_timestamp b - a_timestamp a)); [discriminate | lia].
    + intros a b. unfold later.
      destruct (Z.ltb_spec 0 (a_timestamp b - a_timestamp a)); [lia | discriminate].
Qed.

(** C7, as the specification words it, fails: [detectAll] run on
    [steady_then_raised] at two different times returns two different lists;
    the record found carries the reading of the clock in its identifier and in
    its time of detection. *)
Lemma detectAll_depends_on_the_clock :
  let detect :=
    detectAll (N := Binary64) DEFAULT_THRESHOLDS [] [] [] steady_then_raised in
  map (fun anomaly => (a_id anomaly, detected_at anomaly)) (fst (detect (a_world 0)))
  = [([Lit "anomaly-latency-"; Whole 0; Lit "-"; Radix36 (decimal 1 2)], 1%Z)]
  /\ map (fun anomaly => (a_id anomaly, detected_at anomaly))
         (fst (detect (a_world 60000)))
     = [([Lit "anomaly-latency-"; Whole 60000; Lit "-"; Radix36 (decimal 1 2)],
         60001%Z)]
  /\ fst (detect (a_world 0)) <> fst (detect (a_world 60000)).
Proof.
  intros detect. split; [reflexivity |]. split; [reflexivity |].
  intros same. apply (f_equal (map (@detected_at _))) in same.
  vm_compute in same. discriminate same.
Qed.

(** ** Maps keyed by window *)

Section Grouping.
Context {A V : Type} (key : A -> Z) (init : V) (step : A -> V -> V).







End Grouping.

Section GroupingPermuted.
Context {A V : Type} (key : A -> Z) (init : V) (step : A -> V -> V).
Hypothesis step_commutes : forall x y v, step x (step y v) = step y (step x v).




End GroupingPermuted.

(** ** Sorting a permutation *)

Section SortedUnique.
Context {A : Type} (time : A -> Date).



End SortedUnique.


(** ** Windowed series *)

Section Series.
Context {num A V : Type} (key : A -> Z) (init : V) (step : A -> V -> V)
        (intervalMinutes : Z) (reduce : V -> num).
Hypothesis positive : (0 < intervalMinutes)%Z.






End Series.

Section TimeSeries.
Context {num : Type} {N : JSNumber num}.




End TimeSeries.




(** ** Guarded divisions *)

Section Doubles.
Import Floats.

Lemma SFeqb_refl_not_nan (f : spec_float) : f <> S754_nan -> SFeqb f f = true.
Proof.
  unfold SFeqb, SFcompare. destruct f as [s | s | | s m e]; intros defined.
  - reflexivity.
  - destruct s; reflexivity.
  - congruence.
  - destruct s; rewrite Z.compare_refl, Pos.compare_cont_refl; reflexivity.
Qed.

Lemma SFeqb_opp (f : spec_float) :
  SFeqb f (S754_zero false) = false -> SFeqb f f = true ->
  SFeqb (SFopp f) (S754_zero false) = false /\ SFeqb (SFopp f) (SFopp f) = true.
Proof.
  destruct f as [s | s | | s m e]; intros nonzero defined.
  - discriminate nonzero.
  - destruct s; split; reflexivity.
  - discriminate defined.
  - split; [destruct s; reflexivity |].
    apply SFeqb_refl_not_nan. discriminate.
Qed.

Lemma guard_denominator (x : float) :
  let divisor := guarded (N := Binary64) x in
  num_eq divisor (num_of_Z 0) = false /\ isNaN divisor = false.
Proof.
  assert (zero : Prim2SF (Double.of_Z 0) = S754_zero false)
    by (vm_compute; reflexivity).
  assert (one : Prim2SF (Double.of_Z 1) = S754_finite false 4503599627370496 (-52))
    by (vm_compute; reflexivity).
  cbn zeta. unfold guarded, Math_abs, or_else, truthy, isNaN.
  cbn [num_eq num_lt num_opp num_of_Z Binary64].
  revert zero one. generalize (Double.of_Z 0) (Double.of_Z 1). intros z o zero one.
  destruct (negb (PrimFloat.eqb x z) && negb (negb (PrimFloat.eqb x x)))%bool eqn:set.
  - apply andb_prop in set as [nonzero defined].
    apply negb_true_iff in nonzero. apply negb_true_iff, negb_false_iff in defined.
    destruct (PrimFloat.ltb x z).
    + rewrite eqb_spec, zero in nonzero. rewrite eqb_spec in defined.
      destruct (SFeqb_opp _ nonzero defined) as [nonzero' defined'].
      rewrite !eqb_spec, !opp_spec, zero, nonzero', defined'. split; reflexivity.
    + rewrite nonzero, defined. split; reflexivity.
  - rewrite ltb_spec, one, zero. cbn [SFltb SFcompare].
    rewrite !eqb_spec, one, zero. split; reflexivity.
Qed.
End Doubles.

Lemma exact_guard_denominator (sqrt : Qc -> Qc) (x : Qc) :
  guarded (N := Exact sqrt) x <> 0%Qc.
Proof.
  unfold guarded, Math_abs, or_else, truthy, isNaN.
  cbn [num_eq num_lt num_opp num_of_Z Exact].
  rewrite exact_eq_refl. cbn [negb]. rewrite andb_true_r.
  destruct (Qc_eq_bool x (Q2Qc (inject_Z 0))) eqn:zero; cbn [negb].
  - intros equal. apply (f_equal this) in equal. vm_compute in equal. discriminate equal.
  - assert (nonzero : x <> 0%Qc).
    { intros ->. rewrite exact_eq_refl in zero. discriminate zero. }
    destruct (Rational.ltb x (Q2Qc (inject_Z 0))); [| exact nonzero].
    intros equal. apply nonzero. rewrite <- (Qcopp_involutive x), equal. reflexivity.
Qed.

(** C9, as the code has it.  The metrics computation, the Sharpe ratio and the
    maximum drawdown guard the divisions whose denominator can be zero.  The
    three rates are 0 when there are no orders; the Sharpe ratio is 0 for
    fewer than two points, and the maximum drawdown for none; so every field
    of [calculatePerformanceMetrics] is 0 on the empty event set.  The
    returns of the Sharpe ratio and the drawdowns divide by
    [Math.abs(x || 1)], which is never [0] nor [NaN], in double precision as
    in exact arithmetic; the Sharpe ratio divides by the standard deviation
    only when that is not [0], and is 0 otherwise. *)
Theorem guarded_divisions :
  (forall (num : Type) (N : JSNumber num) (latencyMetrics : list (LatencyMetric num)),
      let metrics := calculatePerformanceMetrics [] [] [] latencyMetrics in
      fillRate metrics = num_of_Z 0 /\ cancelRate metrics = num_of_Z 0
      /\ rejectRate metrics = num_of_Z 0)
  /\ (forall (num : Type) (N : JSNumber num) (riskFreeRate : num)
             (point : TimeSeriesPoint num),
         calculateSharpeRatio [] riskFreeRate = num_of_Z 0
         /\ calculateSharpeRatio [point] riskFreeRate = num_of_Z 0
         /\ calculateMaxDrawdown ([] : list (TimeSeriesPoint num)) = num_of_Z 0)
  /\ (forall (num : Type) (N : JSNumber num),
         calculatePerformanceMetrics [] [] [] []
         = {| fillRate := num_of_Z 0; cancelRate := num_of_Z 0;
              rejectRate := num_of_Z 0; avgLatency := num_of_Z 0;
              p50Latency := Some (num_of_Z 0); p95Latency := Some (num_of_Z 0);
              p99Latency := Some (num_of_Z 0); totalVolume := num_of_Z 0;
              totalPnl := num_of_Z 0; sharpeRatio := num_of_Z 0;
              maxDrawdown := num_of_Z 0 |})
  /\ (forall (num : Type) (N : JSNumber num)
             (previous current : TimeSeriesPoint num)
             (rest : list (TimeSeriesPoint num)) (maxDrawdown peak : num),
         returns_of (previous :: current :: rest)
         = num_div (num_sub (value current) (value previous)) (guarded (value previous))
           :: returns_of (current :: rest)
         /\ drawdown_step (maxDrawdown, peak) current
            = (let peak := if num_gt (value current) peak then value current else peak in
               (Math_max maxDrawdown
                         (num_div (num_sub peak (value current)) (guarded peak)),
                peak)))
  /\ (forall (num : Type) (N : JSNumber num)
             (first second : TimeSeriesPoint num)
             (rest : list (TimeSeriesPoint num)) (riskFreeRate : num),
         calculateSharpeRatio (first :: second :: rest) riskFreeRate
         = (let returns := returns_of (first :: second :: rest) in
            let avgReturn := num_div (sum returns) (num_of_nat (length returns)) in
            let stdDev :=
              Math_sqrt
                (num_div
                   (fold_left
                      (fun sum r => num_add sum (Math_pow2 (num_sub r avgReturn)))
                      returns (num_of_Z 0))
                   (num_of_nat (length returns))) in
            if num_eq stdDev (num_of_Z 0) then num_of_Z 0
            else num_div (num_sub avgReturn (num_div riskFreeRate (num_of_Z 252)))
                         stdDev))
  /\ (forall x : PrimFloat.float,
         num_eq (guarded (N := Binary64) x) (num_of_Z 0) = false
         /\ isNaN (guarded (N := Binary64) x) = false)
  /\ (forall (sqrt : Qc -> Qc) (x : Qc), guarded (N := Exact sqrt) x <> 0%Qc).
Proof.
  split; [| split; [| split; [| split; [| split; [| split]]]]].
  - intros num N latencyMetrics metrics. repeat split.
  - intros num N riskFreeRate point. repeat split.
  - intros num N. reflexivity.
  - intros num N previous current rest maxDrawdown peak. split; reflexivity.
  - intros num N first second rest riskFreeRate. reflexivity.
  - apply guard_denominator.
  - apply exact_guard_denominator.
Qed.

(** C9, as the specification words it, fails in double precision.  The
    quotient [fills.length / totalOrders] at the head of [applyMinFillRate]
    is not guarded and is [NaN] when there are no orders.  And two sales of
    1e308 units overflow: [calculatePerformanceMetrics] returns an infinite
    [totalVolume] and [totalPnl], and [NaN] as [maxDrawdown]. *)
Lemma unguarded_division_and_overflow_in_double_precision :
  isNaN (currentFillRate (N := Binary64) [] [] []) = true
  /\ (let metrics :=
        calculatePerformanceMetrics (N := Binary64) [a_huge_fill; a_huge_fill] [] [] [] in
      Double.finite (f_quantity (a_huge_fill (N := Binary64))) = true
      /\ Double.finite (totalVolume metrics) = false
      /\ Double.finite (totalPnl metrics) = false
      /\ isNaN (maxDrawdown metrics) = true).
Proof.
  vm_compute. repeat split.
Qed.
